(** * Bulk PageSpeed checker: a shallow embedding of [app.py]

    The development follows the source file function by function:
    [get_urls_from_sitemap], [default_error_values], [run_lighthouse],
    [extract_domain] and [main]; of the earlier variant [app2.py] it has
    the sitemap reader.  The outcomes of the library calls that reach
    outside the process ([requests.get] and [ET.fromstring] of its text,
    [subprocess.run], [json.load] of a file, [datetime.now]) are inputs of
    the model; what the program does with them, and the Python operations
    it applies to values ([dict.get], [*], [/], [round], [str.replace],
    [str.split], [urlparse], [findall]), are written out. *)

From Stdlib Require Import ZArith Floats.
From Stdlib Require Import Ascii String.
From stdpp Require Import gmap strings list relations.

Set Warnings "-inexact-float,-register-all".
Local Open Scope Z_scope.

(** ** Python values

    The values [json.load] can produce, which are also the values that end
    up in a metric field and in a report cell.  A [dict] is kept as the
    list of its items; [dict_get] below reads it. *)

Inductive pyval :=
| PNone
| PBool (b : bool)
| PInt (z : Z)
| PFloat (f : float)
| PStr (s : string)
| PList (l : list pyval)
| PDict (items : list (string * pyval)).

(** The exceptions the program can meet. *)
Inductive exn :=
| TimeoutExpired
| FileNotFoundError
| JSONDecodeError
| TypeError
| AttributeError
| OverflowError
| ValueError
| ConnectionError
| HTTPError
| ParseError.

(** A computation that returns or raises. *)
Inductive res (A : Type) :=
| Ok (a : A)
| Raise (e : exn).
Arguments Ok {A} a.
Arguments Raise {A} e.

#[global] Instance res_ret : MRet res := fun A a => Ok a.
#[global] Instance res_bind : MBind res := fun A B k r =>
  match r with
  | Ok a => k a
  | Raise e => Raise e
  end.

(** ** Binary64 arithmetic as CPython does it *)

Module PyFloat.

(** The double nearest to [n / d] ([n], [d] positive integers), ties to
    even: the result of correctly rounded division and of [strtod]. *)
Definition nearest (neg : bool) (n d : positive) : spec_float :=
  let '(q, e, l) := SFdiv_core_binary prec emax (Z.pos n) 0 (Z.pos d) 0 in
  binary_round_aux prec emax neg q e l.

(** Round half to even of [n / d], for [0 <= n] and [0 < d]. *)
Definition div_half_even (n d : Z) : Z :=
  let q := n / d in
  match (2 * (n mod d)) ?= d with
  | Lt => q
  | Gt => q + 1
  | Eq => if Z.even q then q else q + 1
  end.

(** [|x| * 10^ndigits] rounded half to even, for [x = m * 2^e] exactly. *)
Definition scaled (m : positive) (e : Z) (ndigits : nat) : Z :=
  let p := Z.pos m * 10 ^ Z.of_nat ndigits in
  if 0 <=? e then p * 2 ^ e else div_half_even p (2 ^ (- e)).

(** [float.__round__] with [0 <= ndigits]: the decimal with [ndigits]
    fractional digits nearest to the exact value of [x], then the double
    nearest to that decimal.  Zeros, infinities and nans round to
    themselves. *)
Definition round (x : float) (ndigits : nat) : float :=
  match Prim2SF x with
  | S754_finite s m e =>
      match scaled m e ndigits with
      | Z.pos k => SF2Prim (nearest s k (Z.to_pos (10 ^ Z.of_nat ndigits)))
      | _ => SF2Prim (S754_zero s)
      end
  | _ => x
  end.

(** [int / int] (true division), correctly rounded; [None] when the
    quotient is too large for a double. *)
Definition of_quotient (n : Z) (d : positive) : option float :=
  match n with
  | Z0 => Some 0%float
  | Z.pos p =>
      match nearest false p d with
      | S754_finite _ _ _ as r => Some (SF2Prim r)
      | S754_zero _ as r => Some (SF2Prim r)
      | _ => None
      end
  | Z.neg p =>
      match nearest true p d with
      | S754_finite _ _ _ as r => Some (SF2Prim r)
      | S754_zero _ as r => Some (SF2Prim r)
      | _ => None
      end
  end.

End PyFloat.

(** ** Operations on Python values used by the program *)

(** [d.get(key, default)] on the items of a dict. *)
Fixpoint dict_get (items : list (string * pyval)) (key : string)
    (default : pyval) : pyval :=
  match items with
  | [] => default
  | (k, v) :: rest => if String.eqb k key then v else dict_get rest key default
  end.

(** The attribute lookup [v.get]: only a dict has the method. *)
Definition get_method (v : pyval) : res (string -> pyval -> pyval) :=
  match v with
  | PDict items => Ok (dict_get items)
  | _ => Raise AttributeError
  end.

(** [v.get(key, default)] with [default] already evaluated. *)
Definition py_get (v : pyval) (key : string) (default : pyval) : res pyval :=
  get ← get_method v; mret (get key default).

Definition int_of_bool (b : bool) : Z := if b then 1 else 0.

Fixpoint str_repeat (s : string) (n : nat) : string :=
  match n with
  | O => EmptyString
  | S k => s +:+ str_repeat s k
  end.

(** [v * n] for an int [n]. *)
Definition py_mul (v : pyval) (n : Z) : res pyval :=
  match v with
  | PBool b => Ok (PInt (int_of_bool b * n))
  | PInt z => Ok (PInt (z * n))
  | PFloat f =>
      match PyFloat.of_quotient n 1 with
      | Some g => Ok (PFloat (f * g)%float)
      | None => Raise OverflowError
      end
  | PStr s => Ok (PStr (str_repeat s (Z.to_nat n)))
  | PList l => Ok (PList (concat (replicate (Z.to_nat n) l)))
  | PNone | PDict _ => Raise TypeError
  end.

(** [v / d] for a positive int [d]. *)
Definition py_truediv (v : pyval) (d : positive) : res pyval :=
  match v with
  | PBool b =>
      match PyFloat.of_quotient (int_of_bool b) d with
      | Some g => Ok (PFloat g)
      | None => Raise OverflowError
      end
  | PInt z =>
      match PyFloat.of_quotient z d with
      | Some g => Ok (PFloat g)
      | None => Raise OverflowError
      end
  | PFloat f =>
      match PyFloat.of_quotient (Z.pos d) 1 with
      | Some g => Ok (PFloat (f / g)%float)
      | None => Raise OverflowError
      end
  | _ => Raise TypeError
  end.

(** [round(v, ndigits)] for [0 <= ndigits]: an int rounds to itself. *)
Definition py_round (v : pyval) (ndigits : nat) : res pyval :=
  match v with
  | PBool b => Ok (PInt (int_of_bool b))
  | PInt z => Ok (PInt z)
  | PFloat f => Ok (PFloat (PyFloat.round f ndigits))
  | _ => Raise TypeError
  end.

(** ** Metric sets (the dict [run_lighthouse] returns) *)

Record metrics := Metrics {
  performance : pyval;
  speed_index : pyval;
  lcp : pyval;
  inp : pyval;
  cls : pyval
}.

Definition default_error_values : metrics :=
  {| performance := PStr "Error";
     speed_index := PStr "Error";
     lcp := PStr "Error";
     inp := PStr "Error";
     cls := PStr "Error" |}.

(** Lines 71-87 of [run_lighthouse]: the extraction from the decoded
    report.  In the [inp] expression Python looks up the [get] method of
    the interaction-to-next-paint audit first, then evaluates the
    first-input-delay fallback (an argument, so it is always evaluated),
    then makes the call. *)
Definition extract_metrics (data : pyval) : res metrics :=
  audits ← py_get data "audits" (PDict []);
  categories ← py_get data "categories" (PDict []);
  perf_cat ← py_get categories "performance" (PDict []);
  score ← py_get perf_cat "score" (PInt 0);
  performance ← py_mul score 100;
  si_audit ← py_get audits "speed-index" (PDict []);
  si_value ← py_get si_audit "numericValue" (PInt 0);
  speed_index ← py_truediv si_value 1000;
  lcp_audit ← py_get audits "largest-contentful-paint" (PDict []);
  lcp_value ← py_get lcp_audit "numericValue" (PInt 0);
  lcp ← py_truediv lcp_value 1000;
  inp_audit ← py_get audits "interaction-to-next-paint" (PDict []);
  inp_get ← get_method inp_audit;
  fid_audit ← py_get audits "first-input-delay" (PDict []);
  fid_value ← py_get fid_audit "numericValue" (PInt 0);
  inp ← mret (inp_get "numericValue" fid_value);
  cls_audit ← py_get audits "cumulative-layout-shift" (PDict []);
  cls ← py_get cls_audit "numericValue" (PInt 0);
  r_performance ← py_round performance 1;
  r_speed_index ← py_round speed_index 2;
  r_lcp ← py_round lcp 2;
  r_inp ← py_round inp 2;
  r_cls ← py_round cls 3;
  mret {| performance := r_performance;
          speed_index := r_speed_index;
          lcp := r_lcp;
          inp := r_inp;
          cls := r_cls |}.

(** ** The outside world

    Files are kept by what their text is to the program: the rows a
    [csv.writer] wrote, a text [json.load] decodes to a value, or any
    other text.  The file system is taken to accept every name and every
    write: opening a file for writing and writing a row do not fail. *)

Inductive content :=
| Rows (rows : list (list pyval))
| Json (v : pyval)
| Garbage.

(** What [subprocess.run] on the audit tool comes to: the command is not
    on the path, the 180 s timeout expires, the call fails in another way
    (a permission, an argument the system refuses), or the tool exits, with
    whatever return code.  [wrote] is what the tool left at its
    [--output-path], if anything. *)
Inductive proc :=
| NotInstalled
| TimedOut (wrote : option content)
| Failed (e : exn)
| Exited (wrote : option content).

(** An XML element as [xml.etree.ElementTree] builds it: the tag in the
    form [{namespace}local] (or [local] when the document declares no
    namespace), the text ([None] when empty), the children in order. *)
Inductive element :=
| Element (tag : string) (text : option string) (children : list element).

Definition tag (e : element) : string := let 'Element t _ _ := e in t.
Definition text (e : element) : option string := let 'Element _ x _ := e in x.
Definition children (e : element) : list element := let 'Element _ _ c := e in c.

(** What [requests.get] comes to: an exception (connection error, timeout,
    ...) or a response, with its status code and what [ET.fromstring]
    makes of its text. *)
Inductive http_result :=
| NetFail
| Response (status_code : Z) (body : res element).

Inductive event :=
| Fetched (sitemap_url : string)
| Audited (url : option string)
| Slept (seconds : Z).

(** The parts of a run the program does not decide.  Each is asked at a
    logical time, the number of questions asked before. *)
Record env := Env {
  (** [datetime.now().strftime(fmt)] *)
  strftime_now : nat -> string -> string;
  (** [requests.get(url, timeout=10)] *)
  requests_get : nat -> string -> http_result;
  (** the audit tool run on [url] with [--output-path=path] *)
  lighthouse : nat -> string -> string -> proc;
  (** [urlsplit]'s checks of a host that has brackets or is not ASCII *)
  netloc_check : string -> bool
}.

Record world := World {
  files : gmap string content;
  tick : nat;
  log : list event
}.

Definition next (w : world) : world :=
  {| files := files w; tick := S (tick w); log := log w |}.

Definition record (ev : event) (w : world) : world :=
  {| files := files w; tick := tick w; log := log w ++ [ev] |}.

Definition write (path : string) (c : content) (w : world) : world :=
  {| files := <[path := c]> (files w); tick := tick w; log := log w |}.

Definition write_opt (path : string) (c : option content) (w : world) : world :=
  match c with
  | Some c => write path c w
  | None => w
  end.

(** [os.remove(path)] of a file that exists. *)
Definition remove (path : string) (w : world) : world :=
  {| files := delete path (files w); tick := tick w; log := log w |}.

(** [open(path, "a")], [writerow], close: one more line at the end of the
    file, which is created when missing. *)
Definition append_row (path : string) (row : list pyval) (w : world) : world :=
  match files w !! path with
  | None => write path (Rows [row]) w
  | Some (Rows rows) => write path (Rows (rows ++ [row])) w
  | Some _ => write path Garbage w
  end.

Definition json_load (c : content) : res pyval :=
  match c with
  | Json v => Ok v
  | _ => Raise JSONDecodeError
  end.

(** [time.sleep(secs)] for an int.  CPython first converts the length to
    a signed 64-bit count of nanoseconds, an OverflowError when the product
    does not fit ([_PyTime_FromSecondsObject]: the seconds are compared with
    the two bounds divided by 10^9, the division truncating), and then
    refuses a negative length with a ValueError. *)
Definition PyTime_MIN : Z := - 2 ^ 63.
Definition PyTime_MAX : Z := 2 ^ 63 - 1.
Definition SEC_TO_NS : Z := 1000000000.

Definition time_sleep (secs : Z) (w : world) : res unit * world :=
  if (secs <? Z.quot PyTime_MIN SEC_TO_NS) || (Z.quot PyTime_MAX SEC_TO_NS <? secs)
  then (Raise OverflowError, w)
  else if secs <? 0
  then (Raise ValueError, w)
  else (Ok tt, record (Slept secs) w).

(** ** Strings *)

Module Str.

(** [s.replace(old, new)] for a non-empty [old]: the occurrences of [old]
    are taken from the left and do not overlap.  [skip] counts the
    characters of an occurrence still to be passed over. *)
Fixpoint replace_from (old new : string) (skip : nat) (s : string) : string :=
  match s with
  | EmptyString => EmptyString
  | String c s' =>
      match skip with
      | S k => replace_from old new k s'
      | O =>
          if String.prefix old s
          then new +:+ replace_from old new (Nat.pred (String.length old)) s'
          else String c (replace_from old new O s')
      end
  end.

Definition replace (old new s : string) : string := replace_from old new O s.

(** [s.split(sep)[0]] for a one-character [sep]. *)
Fixpoint before (sep : ascii) (s : string) : string :=
  match s with
  | EmptyString => EmptyString
  | String c s' => if Ascii.eqb c sep then EmptyString else String c (before sep s')
  end.

(** [s[-1]], when [s] is not empty. *)
Fixpoint last_char (s : string) : option ascii :=
  match s with
  | EmptyString => None
  | String c rest =>
      match last_char rest with
      | Some d => Some d
      | None => Some c
      end
  end.

Fixpoint contains (x : ascii) (s : string) : bool :=
  match s with
  | EmptyString => false
  | String c s' => Ascii.eqb c x || contains x s'
  end.

Fixpoint forallb (p : ascii -> bool) (s : string) : bool :=
  match s with
  | EmptyString => true
  | String c s' => p c && forallb p s'
  end.

End Str.

(** ** [urllib.parse]: the [netloc] of [urlparse(url)] *)

Module Url.

Definition code (c : ascii) : nat := nat_of_ascii c.

Definition is_c0_or_space (c : ascii) : bool := (code c <=? 32)%nat.

Definition is_unsafe (c : ascii) : bool :=
  (code c =? 9)%nat || (code c =? 13)%nat || (code c =? 10)%nat.

Definition is_ascii (c : ascii) : bool := (code c <? 128)%nat.

Definition is_alpha (c : ascii) : bool :=
  ((65 <=? code c) && (code c <=? 90) || (97 <=? code c) && (code c <=? 122))%nat.

Definition is_scheme_char (c : ascii) : bool :=
  is_alpha c || ((48 <=? code c) && (code c <=? 57))%nat
  || Ascii.eqb c "+" || Ascii.eqb c "-" || Ascii.eqb c ".".

Definition is_delim (c : ascii) : bool :=
  Ascii.eqb c "/" || Ascii.eqb c "?" || Ascii.eqb c "#".

(** A character of a usual host: ASCII, not a delimiter, not a bracket,
    not one [urlsplit] drops. *)
Definition is_plain_host_char (c : ascii) : bool :=
  is_ascii c && negb (is_delim c) && negb (is_unsafe c)
  && negb (Ascii.eqb c "[") && negb (Ascii.eqb c "]").

(** [url.lstrip(_WHATWG_C0_CONTROL_OR_SPACE)] *)
Fixpoint lstrip (url : string) : string :=
  match url with
  | EmptyString => EmptyString
  | String c rest => if is_c0_or_space c then lstrip rest else url
  end.

(** Tabs, carriage returns and line feeds are dropped everywhere. *)
Fixpoint remove_unsafe (url : string) : string :=
  match url with
  | EmptyString => EmptyString
  | String c rest =>
      if is_unsafe c then remove_unsafe rest else String c (remove_unsafe rest)
  end.

(** What follows the first [:], when only scheme characters come before it. *)
Fixpoint after_scheme (url : string) : option string :=
  match url with
  | EmptyString => None
  | String c rest =>
      if Ascii.eqb c ":" then Some rest
      else if is_scheme_char c then after_scheme rest
      else None
  end.

(** The url without its scheme, if it starts with one. *)
Definition strip_scheme (url : string) : string :=
  match url with
  | EmptyString => EmptyString
  | String c _ =>
      if is_alpha c
      then match after_scheme url with
           | Some rest => rest
           | None => url
           end
      else url
  end.

(** [_splitnetloc]: up to the first of [/], [?], [#]. *)
Fixpoint until_delim (s : string) : string :=
  match s with
  | EmptyString => EmptyString
  | String c rest => if is_delim c then EmptyString else String c (until_delim rest)
  end.

(** [urlsplit(url).netloc].  An unmatched bracket is an "Invalid IPv6
    URL"; the further checks of a bracketed or non-ASCII host are left to
    [check]. *)
Definition netloc (check : string -> bool) (url : string) : res string :=
  match strip_scheme (remove_unsafe (lstrip url)) with
  | String "/" (String "/" rest) =>
      let n := until_delim rest in
      let opening := Str.contains "[" n in
      let closing := Str.contains "]" n in
      if xorb opening closing then Raise ValueError
      else if (opening && closing) || negb (Str.forallb is_ascii n)
      then (if check n then Ok n else Raise ValueError)
      else Ok n
  | _ => Ok EmptyString
  end.

End Url.

(** ** The program *)

Section Program.

Variable E : env.

(** *** [get_urls_from_sitemap] *)

Definition sitemap_ns : string := "http://www.sitemaps.org/schemas/sitemap/0.9".

(** A prefixed name [ns:local] of a path, resolved with the [namespace]
    mapping of the function. *)
Definition qualified (local : string) : string := "{" +:+ sitemap_ns +:+ "}" +:+ local.

(** [Element.iter()]: the element, then its descendants, in document order. *)
Fixpoint iter (e : element) : list element :=
  match e with
  | Element _ _ cs => e :: flat_map iter cs
  end.

(** The step [//name] of a path: the elements of [elem.iter(name)] other
    than [elem] itself. *)
Definition find_descendants (name : string) (elem : element) : list element :=
  filter (fun e => tag e = name) (flat_map iter (children elem)).

(** The step [/name] of a path: the children with that tag. *)
Definition find_children (name : string) (elem : element) : list element :=
  filter (fun e => tag e = name) (children elem).

(** [root.findall('.//ns:url/ns:loc', namespace)] *)
Definition findall_url_loc (root : element) : list element :=
  flat_map (find_children (qualified "loc")) (find_descendants (qualified "url") root).

(** [response.raise_for_status()] *)
Definition raise_for_status (status_code : Z) : res unit :=
  if (400 <=? status_code) && (status_code <? 600) then Raise HTTPError else Ok tt.

(** The body of the [try]. *)
Definition get_urls_from_sitemap_try (sitemap_url : string) (w : world)
    : res (list (option string)) :=
  match requests_get E (tick w) sitemap_url with
  | NetFail => Raise ConnectionError
  | Response status_code body =>
      _ ← raise_for_status status_code;
      root ← body;
      mret (text <$> findall_url_loc root)
  end.

Definition get_urls_from_sitemap (sitemap_url : string) (w : world)
    : list (option string) * world :=
  let w' := record (Fetched sitemap_url) (next w) in
  match get_urls_from_sitemap_try sitemap_url w with
  | Ok urls => (urls, w')
  | Raise _ => ([], w')
  end.

(** *** [run_lighthouse] *)

(** The body of the [try], up to the exception it raises. *)
Definition run_lighthouse_try (url : option string) (w : world)
    : res metrics * world :=
  let timestamp := strftime_now E (tick w) "%Y%m%d_%H%M%S" in
  let output_file := "lighthouse_report_" +:+ timestamp +:+ ".json" in
  let w := record (Audited url) (next w) in
  match url with
  | None => (Raise TypeError, w)
  | Some u =>
      let p := lighthouse E (tick w) u output_file in
      let w := next w in
      match p with
      | NotInstalled => (Raise FileNotFoundError, w)
      | TimedOut wrote => (Raise TimeoutExpired, write_opt output_file wrote w)
      | Failed e => (Raise e, w)
      | Exited wrote =>
          let w := write_opt output_file wrote w in
          match files w !! output_file with
          | None => (Raise FileNotFoundError, w)
          | Some c =>
              match json_load c with
              | Raise e => (Raise e, w)
              | Ok data => (extract_metrics data, remove output_file w)
              end
          end
      end
  end.

Definition run_lighthouse (url : option string) (w : world) : metrics * world :=
  match run_lighthouse_try url w with
  | (Ok result, w') => (result, w')
  | (Raise TimeoutExpired, w') => (default_error_values, w')
  | (Raise FileNotFoundError, w') => (default_error_values, w')
  | (Raise JSONDecodeError, w') => (default_error_values, w')
  | (Raise _, w') => (default_error_values, w')
  end.

(** *** [extract_domain] *)

Definition extract_domain (sitemap_url : string) : res string :=
  netloc ← Url.netloc (netloc_check E) sitemap_url;
  mret (Str.before ":" (Str.replace "www." "" netloc)).

(** *** [main]

    The function is cut at the points where it acts on the outside
    world; [main_step] runs it from one such point to the next.  The
    state holds the point reached and the local variables alive there. *)

Definition report_header : list pyval :=
  [PStr "URL"; PStr "Performance Score"; PStr "Speed Index (s)"; PStr "LCP (s)";
   PStr "INP (ms)"; PStr "CLS"; PStr "Waktu Pengukuran"].

(** A url is the [text] of a [loc] element: a string, or [None]. *)
Definition url_cell (url : option string) : pyval :=
  match url with
  | Some u => PStr u
  | None => PNone
  end.

Definition report_row (url : option string) (result : metrics) (time : string)
    : list pyval :=
  [url_cell url; performance result; speed_index result; lcp result;
   inp result; cls result; PStr time].

(** The points: the entry (line 114); before the sitemap is read (121);
    before the report is created (131); at the head of the loop with [done]
    urls behind (144); before the row of the [done + 1]-th url is written
    (152); at the test of [i < len(urls)] (168); the early return (125);
    the end (172); an exception nothing catches. *)
Inductive state :=
| Start
| Discover (output_csv : string)
| Create (output_csv : string) (urls : list (option string))
| Measure (output_csv : string) (urls : list (option string)) (done : nat)
| Write (output_csv : string) (urls : list (option string)) (done : nat)
        (url : option string) (result : metrics)
| Delay (output_csv : string) (urls : list (option string)) (i : nat)
| Returned
| Finished (output_csv : string) (urls : list (option string))
| Crashed (e : exn).

(** [sitemap_url] and [delay] are [args.sitemap] and [args.delay]. *)
Definition main_step (sitemap_url : string) (delay : Z) (c : state * world)
    : option (state * world) :=
  let '(st, w) := c in
  match st with
  | Start =>
      match extract_domain sitemap_url with
      | Raise e => Some (Crashed e, w)
      | Ok domain_name =>
          let timestamp := strftime_now E (tick w) "%Y%m%d_%H%M%S" in
          Some (Discover (domain_name +:+ "_pagespeed_" +:+ timestamp +:+ ".csv"),
                next w)
      end
  | Discover output_csv =>
      let '(urls, w') := get_urls_from_sitemap sitemap_url w in
      match urls with
      | [] => Some (Returned, w')
      | _ :: _ => Some (Create output_csv urls, w')
      end
  | Create output_csv urls =>
      Some (Measure output_csv urls 0, write output_csv (Rows [report_header]) w)
  | Measure output_csv urls done =>
      match urls !! done with
      | None => Some (Finished output_csv urls, w)
      | Some url =>
          let '(result, w') := run_lighthouse url w in
          Some (Write output_csv urls done url result, w')
      end
  | Write output_csv urls done url result =>
      let time := strftime_now E (tick w) "%Y-%m-%d %H:%M:%S" in
      Some (Delay output_csv urls (S done),
            append_row output_csv (report_row url result time) (next w))
  | Delay output_csv urls i =>
      if (i <? length urls)%nat
      then match time_sleep delay w with
           | (Ok _, w') => Some (Measure output_csv urls i, w')
           | (Raise e, w') => Some (Crashed e, w')
           end
      else Some (Measure output_csv urls i, w)
  | Returned | Finished _ _ | Crashed _ => None
  end.

Definition step (sitemap_url : string) (delay : Z) (c c' : state * world) : Prop :=
  main_step sitemap_url delay c = Some c'.

(** At most [n] steps from [c]. *)
Fixpoint run (sitemap_url : string) (delay : Z) (n : nat) (c : state * world)
    : state * world :=
  match n with
  | O => c
  | S k =>
      match main_step sitemap_url delay c with
      | Some c' => run sitemap_url delay k c'
      | None => c
      end
  end.

End Program.

(** The url list of the run from [w0]: what the reader returns when [main]
    calls it. *)
Definition discovered (E : env) (sitemap_url : string) (w0 : world)
    : list (option string) :=
  (get_urls_from_sitemap E sitemap_url (next w0)).1.

(** The number of steps of the longest run over [n] urls: three to reach
    the loop, three for each url, one to leave the loop. *)
Definition steps_of (n : nat) : nat := 3 * n + 4.

(** [main()] with the arguments [-sitemap sitemap_url -delay delay], from
    the world [w0] to the point where it returns, finishes or crashes, and
    the world it leaves. *)
Definition main (E : env) (sitemap_url : string) (delay : Z) (w0 : world)
    : state * world :=
  run E sitemap_url delay (steps_of (length (discovered E sitemap_url w0))) (Start, w0).

(** ** The earlier variant, [app2.py]: its sitemap reader

    No [try], and the status is compared with 200. *)

Module App2.

Definition get_urls_from_sitemap (E : env) (sitemap_url : string) (w : world)
    : res (list (option string)) * world :=
  let w' := record (Fetched sitemap_url) (next w) in
  match requests_get E (tick w) sitemap_url with
  | NetFail => (Raise ConnectionError, w')
  | Response status_code body =>
      if status_code =? 200
      then (root ← body; mret (text <$> findall_url_loc root), w')
      else (Ok [], w')
  end.

End App2.

(** ** Vocabulary of the specification *)

(** *** Report fields by path *)

Fixpoint dict_lookup (items : list (string * pyval)) (key : string) : option pyval :=
  match items with
  | [] => None
  | (k, v) :: rest => if String.eqb k key then Some v else dict_lookup rest key
  end.

(** The value found by following [path] through nested dicts; [None] when
    a key is absent on the way. *)
Fixpoint field (v : pyval) (path : list string) : option pyval :=
  match path with
  | [] => Some v
  | key :: rest =>
      match v with
      | PDict items =>
          match dict_lookup items key with
          | Some v' => field v' rest
          | None => None
          end
      | _ => None
      end
  end.

Definition or_zero (o : option pyval) : pyval := default (PInt 0) o.

Definition is_dict (v : pyval) : bool :=
  match v with
  | PDict _ => true
  | _ => false
  end.

Definition is_number (v : pyval) : bool :=
  match v with
  | PInt _ | PFloat _ => true
  | _ => false
  end.

Definition if_present (p : pyval -> bool) (o : option pyval) : bool :=
  match o with
  | Some v => p v
  | None => true
  end.

Definition audit_names : list string :=
  ["speed-index"; "largest-contentful-paint"; "interaction-to-next-paint";
   "first-input-delay"; "cumulative-layout-shift"].

(** An audit report of the expected shape: whatever is present on the way
    to a metric is a dict, and the metric itself is a number.  Anything may
    be absent. *)
Definition well_shaped (data : pyval) : bool :=
  is_dict data
  && if_present is_dict (field data ["categories"])
  && if_present is_dict (field data ["categories"; "performance"])
  && if_present is_number (field data ["categories"; "performance"; "score"])
  && if_present is_dict (field data ["audits"])
  && forallb (fun a => if_present is_dict (field data ["audits"; a])
                       && if_present is_number (field data ["audits"; a; "numericValue"]))
       audit_names.

(** The five metrics as the specification words them, with the
    arithmetic written out on its own: the product by 100, the quotient by
    1000 and the rounding to decimals are not the operations of the
    program. *)
Module Spec.

(** The integer nearest to [num / den] for [0 < den]: the floor of the
    quotient plus one half, and of two integers equally near the even one. *)
Definition nearest_even (num den : Z) : Z :=
  let t := (2 * num + den) / (2 * den) in
  if ((2 * num + den) mod (2 * den) =? 0) && Z.odd t then t - 1 else t.

(** [x] rounded to [ndigits] decimals.  A finite [x] is [m * 2^e] up to
    its sign; the multiple of [10^-ndigits] nearest to it is taken, and
    then the double nearest to that decimal. *)
Definition rounded (x : float) (ndigits : nat) : float :=
  match Prim2SF x with
  | S754_finite s m e =>
      let num := Z.pos m * 2 ^ Z.max e 0 * 10 ^ Z.of_nat ndigits in
      let den := 2 ^ Z.max (- e) 0 in
      match nearest_even num den with
      | Z.pos k => SF2Prim (PyFloat.nearest s k (Z.to_pos (10 ^ Z.of_nat ndigits)))
      | _ => SF2Prim (S754_zero s)
      end
  | _ => x
  end.

(** A number rounded to decimals: an int is its own rounding. *)
Definition round_number (v : pyval) (ndigits : nat) : res pyval :=
  match v with
  | PInt z => Ok (PInt z)
  | PFloat f => Ok (PFloat (rounded f ndigits))
  | _ => Raise TypeError
  end.

(** A score as a percentage. *)
Definition times_100 (v : pyval) : res pyval :=
  match v with
  | PInt z => Ok (PInt (100 * z))
  | PFloat f => Ok (PFloat (f * 100)%float)
  | _ => Raise TypeError
  end.

(** Milliseconds as seconds: the double nearest to the quotient, which an
    int beyond the doubles does not have. *)
Definition per_1000 (v : pyval) : res pyval :=
  match v with
  | PInt z =>
      match PyFloat.of_quotient z 1000 with
      | Some g => Ok (PFloat g)
      | None => Raise OverflowError
      end
  | PFloat f => Ok (PFloat (f / 1000)%float)
  | _ => Raise TypeError
  end.

Definition performance (data : pyval) : res pyval :=
  percent ← times_100 (or_zero (field data ["categories"; "performance"; "score"]));
  round_number percent 1.

Definition seconds (data : pyval) (audit : string) : res pyval :=
  s ← per_1000 (or_zero (field data ["audits"; audit; "numericValue"]));
  round_number s 2.

Definition inp (data : pyval) : res pyval :=
  match field data ["audits"; "interaction-to-next-paint"; "numericValue"] with
  | Some v => round_number v 2
  | None =>
      round_number (or_zero (field data ["audits"; "first-input-delay"; "numericValue"])) 2
  end.

Definition cls (data : pyval) : res pyval :=
  round_number (or_zero (field data ["audits"; "cumulative-layout-shift"; "numericValue"])) 3.

Definition metrics_of (data : pyval) : res metrics :=
  p ← performance data;
  s ← seconds data "speed-index";
  l ← seconds data "largest-contentful-paint";
  i ← inp data;
  c ← cls data;
  mret (Metrics p s l i c).

(** The header of section 6 of the specification. *)
Definition header : list pyval :=
  [PStr "URL"; PStr "Performance Score"; PStr "Speed Index (s)"; PStr "LCP (s)";
   PStr "INP (ms)"; PStr "CLS"; PStr "Measurement Time"].

End Spec.

Definition all_error (m : metrics) : Prop :=
  performance m = PStr "Error" /\ speed_index m = PStr "Error" /\ lcp m = PStr "Error"
  /\ inp m = PStr "Error" /\ cls m = PStr "Error".

Definition all_numbers (m : metrics) : Prop :=
  is_number (performance m) /\ is_number (speed_index m) /\ is_number (lcp m)
  /\ is_number (inp m) /\ is_number (cls m).

(** *** Sitemap documents *)

(** The same document with every tag in the sitemap namespace. *)
Fixpoint qualify (e : element) : element :=
  match e with
  | Element t x cs => Element (qualified t) x (map qualify cs)
  end.

(** No tag of the document carries a namespace. *)
Definition plain_tags (root : element) : bool :=
  forallb (fun e => negb (String.prefix "{" (tag e))) (iter root).

(** A [url] element has no [url] element below it. *)
Definition flat_at (e : element) : Prop :=
  tag e = qualified "url" -> find_descendants (qualified "url") e = [].

(** The sitemap is flat: no [url] element lies inside another. *)
Definition flat_sitemap (root : element) : bool :=
  forallb (fun e => negb (String.eqb (tag e) (qualified "url"))
                    || bool_decide (length (find_descendants (qualified "url") e) = 0%nat))
    (iter root).

(** The [url/loc] entries of a document by local names, in the order
    [findall] lists them. *)
Definition url_loc_entries (root : element) : list (option string) :=
  text <$> flat_map (find_children "loc") (find_descendants "url" root).

(** *** Runs *)

(** The rows of the report at [path], when there is one. *)
Definition report (w : world) (path : string) : option (list (list pyval)) :=
  match files w !! path with
  | Some (Rows rows) => Some rows
  | _ => None
  end.

(** A fully formed row for [url]: seven cells, the url itself (or [None]
    for a [loc] without text), then the five metrics an audit of that url
    returned, all numbers or all the sentinel, in the order of the header,
    then a time of measurement in the form of the report. *)
Definition row_of (E : env) (url : option string) (row : list pyval) : Prop :=
  exists w t,
    let result := (run_lighthouse E url w).1 in
    row = [match url with Some u => PStr u | None => PNone end;
           performance result; speed_index result; lcp result; inp result; cls result;
           PStr (strftime_now E t "%Y-%m-%d %H:%M:%S")]
    /\ (all_numbers result \/ all_error result).

(** The report at [path] is the header and one row for each of [urls], in order. *)
Definition report_is (E : env) (w : world) (path : string) (urls : list (option string))
    : Prop :=
  exists rows,
    report w path
    = Some ([PStr "URL"; PStr "Performance Score"; PStr "Speed Index (s)"; PStr "LCP (s)";
             PStr "INP (ms)"; PStr "CLS"; PStr "Waktu Pengukuran"] :: rows)
    /\ Forall2 (row_of E) urls rows.

(** The report name, the url list and the number of urls processed so far,
    at the points of [main] from the loop on. *)
Definition progress (st : state) : option (string * list (option string) * nat) :=
  match st with
  | Measure output_csv urls done => Some (output_csv, urls, done)
  | Write output_csv urls done _ _ => Some (output_csv, urls, done)
  | Delay output_csv urls i => Some (output_csv, urls, i)
  | Finished output_csv urls => Some (output_csv, urls, length urls)
  | _ => None
  end.

(** What the loop adds to the log for [urls]: an audit each, a sleep
    between two. *)
Fixpoint loop_log (delay : Z) (urls : list (option string)) : list event :=
  match urls with
  | [] => []
  | url :: rest =>
      Audited url :: match rest with
                     | [] => []
                     | _ :: _ => Slept delay :: loop_log delay rest
                     end
  end.

Definition sleeps (l : list event) : list Z :=
  omap (fun ev => match ev with Slept d => Some d | _ => None end) l.

Definition audits (l : list event) : list (option string) :=
  omap (fun ev => match ev with Audited u => Some u | _ => None end) l.

Definition sum_list (l : list Z) : Z := foldr Z.add 0 l.

(** The name [run_lighthouse] gives its temporary file when called in [w]. *)
Definition artifact_name (E : env) (w : world) : string :=
  "lighthouse_report_" +:+ strftime_now E (tick w) "%Y%m%d_%H%M%S" +:+ ".json".

(** What [run_lighthouse] finds at that name after the tool has run. *)
Definition artifact_read (E : env) (w : world) (wrote : option content)
    : option content :=
  match wrote with
  | Some c => Some c
  | None => files w !! artifact_name E w
  end.

(** The audit of [url] started in [w] fails: by the argument, the tool
    missing, the timeout, another failure of the call, no output, an output
    that is not JSON, or an output the extraction cannot use. *)
Inductive audit_fails (E : env) (w : world) : option string -> Prop :=
| fails_no_url :
    audit_fails E w None
| fails_not_installed u :
    lighthouse E (S (tick w)) u (artifact_name E w) = NotInstalled ->
    audit_fails E w (Some u)
| fails_timeout u wrote :
    lighthouse E (S (tick w)) u (artifact_name E w) = TimedOut wrote ->
    audit_fails E w (Some u)
| fails_otherwise u e :
    lighthouse E (S (tick w)) u (artifact_name E w) = Failed e ->
    audit_fails E w (Some u)
| fails_no_output u wrote :
    lighthouse E (S (tick w)) u (artifact_name E w) = Exited wrote ->
    artifact_read E w wrote = None ->
    audit_fails E w (Some u)
| fails_not_json u wrote c :
    lighthouse E (S (tick w)) u (artifact_name E w) = Exited wrote ->
    artifact_read E w wrote = Some c ->
    json_load c = Raise JSONDecodeError ->
    audit_fails E w (Some u)
| fails_extraction u wrote data e :
    lighthouse E (S (tick w)) u (artifact_name E w) = Exited wrote ->
    artifact_read E w wrote = Some (Json data) ->
    extract_metrics data = Raise e ->
    audit_fails E w (Some u).

(** The first line of the file at [path]. *)
Definition first_row (w : world) (path : string) : option (list pyval) :=
  report w path ≫= head.

(** The fetch of the sitemap in [w] fails: a network error, an error
    status, or a body that is not well-formed XML. *)
Inductive fetch_fails (E : env) (sitemap_url : string) (w : world) : Prop :=
| fetch_network_error :
    requests_get E (tick w) sitemap_url = NetFail ->
    fetch_fails E sitemap_url w
| fetch_error_status status_code body :
    requests_get E (tick w) sitemap_url = Response status_code body ->
    400 <= status_code < 600 ->
    fetch_fails E sitemap_url w
| fetch_malformed status_code e :
    requests_get E (tick w) sitemap_url = Response status_code (Raise e) ->
    fetch_fails E sitemap_url w.

(** What holds at each point of a run of [main] started in [w0]. *)
Definition run_invariant (E : env) (sitemap_url : string) (w0 : world)
    (c : state * world) : Prop :=
  match c.1 with
  | Start => c.2 = w0
  | Discover output_csv =>
      Str.last_char output_csv = Some "v"%char /\ c.2 = next w0
  | Create output_csv urls =>
      Str.last_char output_csv = Some "v"%char /\ urls = discovered E sitemap_url w0
  | Measure output_csv urls done =>
      Str.last_char output_csv = Some "v"%char /\ urls = discovered E sitemap_url w0
      /\ (done <= length urls)%nat /\ report_is E c.2 output_csv (take done urls)
  | Write output_csv urls done url result =>
      Str.last_char output_csv = Some "v"%char /\ urls = discovered E sitemap_url w0
      /\ urls !! done = Some url /\ (exists w, result = (run_lighthouse E url w).1)
      /\ report_is E c.2 output_csv (take done urls)
  | Delay output_csv urls i =>
      Str.last_char output_csv = Some "v"%char /\ urls = discovered E sitemap_url w0
      /\ (i <= length urls)%nat /\ report_is E c.2 output_csv (take i urls)
  | Finished output_csv urls =>
      urls = discovered E sitemap_url w0 /\ report_is E c.2 output_csv urls
  | Returned | Crashed _ => True
  end.

(** The run started in [w0] has slept [j] times so far, [delay] each time. *)
Definition slept (delay : Z) (w0 w : world) (j : nat) : Prop :=
  sleeps (log w) = sleeps (log w0) ++ replicate j delay.

(** The sleeps at each point of a run of [main] over [n] urls: one after
    each url processed but the last. *)
Definition sleep_invariant (delay : Z) (w0 : world) (n : nat) (c : state * world)
    : Prop :=
  match c.1 with
  | Start | Discover _ | Create _ _ | Returned => slept delay w0 c.2 0
  | Measure _ _ done => slept delay w0 c.2 (done `min` (n - 1))
  | Write _ _ done _ _ => (done < n)%nat /\ slept delay w0 c.2 done
  | Delay _ _ i => (1 <= i <= n)%nat /\ slept delay w0 c.2 (i - 1)
  | Finished _ _ => slept delay w0 c.2 (n - 1)
  | Crashed _ => exists j, (j <= n - 1)%nat /\ slept delay w0 c.2 j
  end.

(** ** The rest of the earlier variant, [app2.py]

    Its [run_lighthouse] reads the report from the output of the tool:
    without [--output-path] the tool writes its JSON report to [stdout], and
    [wrote] is then the captured text, [None] when there is none.  Every
    exception of the body is caught by the one handler, so the body is
    followed up to whether it raises. *)

Module App2Run.

(** Whether a computation returns, for code under [except Exception]. *)
Definition caught {A} (r : res A) : option A :=
  match r with
  | Ok a => Some a
  | Raise _ => None
  end.

(** [v[key]] for a string [key]: the item of a dict; a missing key
    (KeyError) and a value that is not a dict (TypeError) both raise. *)
Definition py_item (v : pyval) (key : string) : option pyval :=
  match v with
  | PDict items => dict_lookup items key
  | _ => None
  end.

(** The dict [run_lighthouse] returns. *)
Record result := Result {
  performance : pyval;
  speed_index : pyval
}.

Definition error_values : result :=
  {| performance := PStr "Error"; speed_index := PStr "Error" |}.

(** Lines 32-36: the two metrics of a decoded report. *)
Definition extract (json_data : pyval) : option result :=
  categories ← py_item json_data "categories";
  perf_cat ← py_item categories "performance";
  score ← py_item perf_cat "score";
  performance ← caught (py_mul score 100);
  audits ← py_item json_data "audits";
  si_audit ← py_item audits "speed-index";
  si_value ← py_item si_audit "numericValue";
  speed_index ← caught (py_truediv si_value 1000);
  r_speed_index ← caught (py_round speed_index 2);
  Some {| performance := performance; speed_index := r_speed_index |}.

(** The body of the [try]: [None] when it raises. *)
Definition run_lighthouse_try (E : env) (url : option string) (w : world)
    : option result * world :=
  let w := record (Audited url) w in
  match url with
  | None => (None, w)
  | Some u =>
      let p := lighthouse E (tick w) u "stdout" in
      let w := next w in
      match p with
      | NotInstalled => (None, w)
      | TimedOut _ => (None, w)
      | Failed _ => (None, w)
      | Exited None => (Some error_values, w)
      | Exited (Some data) =>
          match json_load data with
          | Raise _ => (None, w)
          | Ok json_data => (extract json_data, w)
          end
      end
  end.

Definition run_lighthouse (E : env) (url : option string) (w : world)
    : result * world :=
  match run_lighthouse_try E url w with
  | (Some r, w') => (r, w')
  | (None, w') => (error_values, w')
  end.

Definition extract_domain (E : env) (sitemap_url : string) : res string :=
  netloc ← Url.netloc (netloc_check E) sitemap_url;
  mret (Str.replace "www." "" netloc).

Definition header : list pyval :=
  [PStr "URL"; PStr "Performance Score"; PStr "Speed Index (s)"].

Definition row (url : option string) (r : result) : list pyval :=
  [url_cell url; performance r; speed_index r].

(** The loop of [main]: audit, append the row, sleep two seconds. *)
Fixpoint loop (E : env) (output_csv : string) (urls : list (option string))
    (w : world) : world :=
  match urls with
  | [] => w
  | url :: rest =>
      let '(r, w1) := run_lighthouse E url w in
      let w2 := append_row output_csv (row url r) w1 in
      loop E output_csv rest (record (Slept 2) w2)
  end.

(** [main()] with the argument [-sitemap sitemap_url]: how it ends, by
    returning or by an exception nothing catches, and the world it leaves. *)
Definition main (E : env) (sitemap_url : string) (w : world) : res unit * world :=
  match extract_domain E sitemap_url with
  | Raise e => (Raise e, w)
  | Ok domain_name =>
      let output_csv := domain_name +:+ "_pagespeed.csv" in
      match App2.get_urls_from_sitemap E sitemap_url w with
      | (Raise e, w1) => (Raise e, w1)
      | (Ok urls, w1) =>
          (Ok tt, loop E output_csv urls (write output_csv (Rows [header]) w1))
      end
  end.

(** The report at [path] is the header and one row for each of [urls], in order. *)
Definition report_is (w : world) (path : string) (urls : list (option string)) : Prop :=
  exists rows,
    report w path = Some (header :: rows)
    /\ Forall2 (fun url r => exists res, r = row url res) urls rows.

End App2Run.

(** *** Further vocabulary *)

Definition is_float (v : pyval) : bool :=
  match v with
  | PFloat _ => true
  | _ => false
  end.

(** No element of the document is a [url] of the sitemap namespace. *)
Definition no_url_element (root : element) : bool :=
  forallb (fun e => negb (String.eqb (tag e) (qualified "url"))) (iter root).

(** [path] is a name [run_lighthouse] can give its temporary file. *)
Definition is_artifact (E : env) (path : string) : Prop :=
  exists t, path = "lighthouse_report_" +:+ strftime_now E t "%Y%m%d_%H%M%S" +:+ ".json".

(** The name [main] gives the report when started in [w0], for a domain. *)
Definition report_name (E : env) (domain_name : string) (w0 : world) : string :=
  domain_name +:+ "_pagespeed_" +:+ strftime_now E (tick w0) "%Y%m%d_%H%M%S" +:+ ".csv".

(** What holds of a file [path] that is neither the report nor a temporary
    file, at each point of a run of [main] started in [w0]. *)
Definition frame_invariant (E : env) (path : string) (w0 : world)
    (c : state * world) : Prop :=
  files c.2 !! path = files w0 !! path
  /\ match c.1 with
     | Start => tick c.2 = tick w0
     | Discover output_csv => path <> output_csv
     | Create output_csv _ => path <> output_csv
     | Measure output_csv _ _ => path <> output_csv
     | Write output_csv _ _ _ _ => path <> output_csv
     | Delay output_csv _ _ => path <> output_csv
     | Finished output_csv _ => path <> output_csv
     | Returned | Crashed _ => True
     end.

(** ** A concrete site, for examples *)

Module Demo.

Definition page_a : string := "https://example.com/".
Definition page_b : string := "https://example.com/about".

(** A sitemap of two pages, written without the namespace. *)
Definition sitemap_doc : element :=
  Element "urlset" None
    [Element "url" None [Element "loc" (Some page_a) []];
     Element "url" None [Element "loc" (Some page_b) []]].

(** An audit report with a score of 0.873 and no interaction-to-next-paint. *)
Definition audit_report : pyval :=
  PDict
    [("categories", PDict [("performance", PDict [("score", PFloat 0.873)])]);
     ("audits",
      PDict [("speed-index", PDict [("numericValue", PFloat 2345.678)]);
             ("largest-contentful-paint", PDict [("numericValue", PInt 1999)]);
             ("first-input-delay", PDict [("numericValue", PFloat 16.0049)]);
             ("cumulative-layout-shift", PDict [("numericValue", PFloat 0.0235)])])].

Definition clock (t : nat) (fmt : string) : string :=
  if String.eqb fmt "%Y%m%d_%H%M%S" then "20240101_120000" else "2024-01-01 12:00:00".

(** The site serves [doc]; the audit of page A succeeds and the audit of
    any other page times out. *)
Definition serving (doc : element) : env :=
  {| strftime_now := clock;
     requests_get := fun _ _ => Response 200 (Ok doc);
     lighthouse := fun _ url _ =>
       if String.eqb url page_a then Exited (Some (Json audit_report)) else TimedOut None;
     netloc_check := fun _ => true |}.

Definition site : env := serving (qualify sitemap_doc).

(** The sitemap cannot be fetched. *)
Definition offline : env :=
  {| strftime_now := clock;
     requests_get := fun _ _ => NetFail;
     lighthouse := fun _ _ _ => NotInstalled;
     netloc_check := fun _ => true |}.

(** The tool exits leaving a text that is not JSON. *)
Definition truncating : env :=
  {| strftime_now := clock;
     requests_get := fun _ _ => Response 200 (Ok (qualify sitemap_doc));
     lighthouse := fun _ _ _ => Exited (Some Garbage);
     netloc_check := fun _ => true |}.

Definition sitemap_url : string := "https://www.example.com:443/sitemap.xml".

Definition empty_world : world := {| files := ∅; tick := 0; log := [] |}.

End Demo.

(** ** Further cases, for examples *)

Module Cases.

(** A sitemap index: it lists sitemaps, not pages. *)
Definition sitemap_index : element :=
  qualify (Element "sitemapindex" None
             [Element "sitemap" None
                [Element "loc" (Some "https://example.com/pages.xml") []]]).

(** A sitemap of one page. *)
Definition one_page : element :=
  qualify (Element "urlset" None
             [Element "url" None [Element "loc" (Some Demo.page_a) []]]).

(** The site answers with [status_code] and [body]; the tool comes to
    [tool] on every page. *)
Definition answering (status_code : Z) (body : res element) (tool : proc) : env :=
  {| strftime_now := Demo.clock;
     requests_get := fun _ _ => Response status_code body;
     lighthouse := fun _ _ _ => tool;
     netloc_check := fun _ => true |}.

(** A world with one file. *)
Definition holding (path : string) (c : content) : world :=
  {| files := {[path := c]}; tick := 0; log := [] |}.

(** An audit report whose score is [null], as for a page that could not be
    loaded. *)
Definition null_score_report : pyval :=
  PDict
    [("categories", PDict [("performance", PDict [("score", PNone)])]);
     ("audits", PDict [("speed-index", PDict [("numericValue", PFloat 2345.678)])])].

(** An audit report whose score times 100 is not a short decimal. *)
Definition unrounded_report : pyval :=
  PDict
    [("categories", PDict [("performance", PDict [("score", PFloat 0.57)])]);
     ("audits", PDict [("speed-index", PDict [("numericValue", PFloat 2345.678)])])].

End Cases.

(** * Properties *)

(** ** Reading a decoded report *)

Lemma dict_get_lookup items key d :
  dict_get items key d = default d (dict_lookup items key).
Proof.
  induction items as [|[k v] rest IH]; simpl; [done|].
  by destruct (String.eqb k key).
Qed.

Lemma py_get_dict items key d :
  py_get (PDict items) key d = Ok (default d (dict_lookup items key)).
Proof. unfold py_get. simpl. by rewrite dict_get_lookup. Qed.

Lemma py_get_leaf items key d :
  py_get (PDict items) key d = Ok (default d (field (PDict items) [key])).
Proof. rewrite py_get_dict. simpl. by destruct (dict_lookup items key). Qed.

(** Reading a nested dict that may be absent: the result is a dict whose
    fields are the fields of the outer one below [key]. *)
Lemma py_get_sub items key :
  if_present is_dict (field (PDict items) [key]) ->
  exists inner,
    py_get (PDict items) key (PDict []) = Ok (PDict inner)
    /\ forall k path,
        field (PDict inner) (k :: path) = field (PDict items) (key :: k :: path).
Proof.
  intros H. rewrite py_get_dict. simpl in *.
  destruct (dict_lookup items key) as [v|] eqn:Hl; simpl in *.
  - destruct v; try done. eauto.
  - exists []. eauto.
Qed.

Lemma of_quotient_100 : PyFloat.of_quotient 100 1 = Some 100%float.
Proof. vm_compute. reflexivity. Qed.

Lemma of_quotient_1000 : PyFloat.of_quotient 1000 1 = Some 1000%float.
Proof. vm_compute. reflexivity. Qed.

Lemma py_mul_number v :
  is_number v -> exists r, py_mul v 100 = Ok r /\ is_number r.
Proof.
  destruct v; try done; intros _; unfold py_mul.
  - eauto.
  - rewrite of_quotient_100. eauto.
Qed.

Lemma py_round_number v n :
  is_number v -> exists r, py_round v n = Ok r /\ is_number r.
Proof. destruct v; try done; intros _; simpl; eauto. Qed.

(** Dividing a number by 1000 can only fail on an int beyond the doubles. *)
Lemma py_truediv_number v :
  is_number v ->
  (exists r, py_truediv v 1000 = Ok r /\ is_number r)
  \/ py_truediv v 1000 = Raise OverflowError.
Proof.
  destruct v; try done; intros _; unfold py_truediv.
  - destruct (PyFloat.of_quotient z 1000); eauto.
  - rewrite of_quotient_1000. eauto.
Qed.

Lemma or_zero_number o : if_present is_number o -> is_number (or_zero o).
Proof. by destruct o. Qed.

Lemma bind_ok {A B} (r : res A) (k : A -> res B) b :
  r ≫= k = Ok b -> exists a, r = Ok a /\ k a = Ok b.
Proof. destruct r; [eauto|done]. Qed.

Lemma py_round_ok v n r : py_round v n = Ok r -> is_number r.
Proof. destruct v; intros [= <-] || done; done. Qed.

(** Whatever the report, a metric set that is returned holds five numbers. *)
Lemma extract_metrics_numbers data m :
  extract_metrics data = Ok m -> all_numbers m.
Proof.
  unfold extract_metrics. intros H.
  repeat (apply bind_ok in H as (? & ? & H)).
  injection H as <-. repeat split; cbn; by eapply py_round_ok.
Qed.

(** *** The arithmetic of the program is the arithmetic of the specification *)

Lemma nearest_even_div n d :
  0 < d -> PyFloat.div_half_even n d = Spec.nearest_even n d.
Proof.
  intros Hd. unfold PyFloat.div_half_even, Spec.nearest_even.
  pose proof (Z.div_mod n d ltac:(lia)) as Hn.
  pose proof (Z.mod_pos_bound n d Hd) as Hr.
  set (q := n / d) in *. set (r := n mod d) in *.
  destruct (Z.compare_spec (2 * r) d) as [He|Hl|Hg].
  - assert ((2 * n + d) / (2 * d) = q + 1) as ->
      by (symmetry; apply (Z.div_unique _ _ _ 0); lia).
    assert ((2 * n + d) mod (2 * d) = 0) as ->
      by (symmetry; apply (Z.mod_unique _ _ (q + 1)); lia).
    cbn [Z.eqb andb]. replace (q + 1) with (Z.succ q) by lia.
    rewrite Z.odd_succ. destruct (Z.even q); [f_equal; lia|done].
  - assert ((2 * n + d) / (2 * d) = q) as ->
      by (symmetry; apply (Z.div_unique _ _ _ (2 * r + d)); lia).
    assert ((2 * n + d) mod (2 * d) = 2 * r + d) as ->
      by (symmetry; apply (Z.mod_unique _ _ q); lia).
    destruct (Z.eqb_spec (2 * r + d) 0); [lia|done].
  - assert ((2 * n + d) / (2 * d) = q + 1) as ->
      by (symmetry; apply (Z.div_unique _ _ _ (2 * r - d)); lia).
    assert ((2 * n + d) mod (2 * d) = 2 * r - d) as ->
      by (symmetry; apply (Z.mod_unique _ _ (q + 1)); lia).
    destruct (Z.eqb_spec (2 * r - d) 0); [lia|done].
Qed.

Lemma nearest_even_whole n : Spec.nearest_even n 1 = n.
Proof.
  unfold Spec.nearest_even.
  assert ((2 * n + 1) / (2 * 1) = n) as ->
    by (symmetry; apply (Z.div_unique _ _ _ 1); lia).
  assert ((2 * n + 1) mod (2 * 1) = 1) as ->
    by (symmetry; apply (Z.mod_unique _ _ n); lia).
  done.
Qed.

Lemma scaled_nearest_even m e ndigits :
  PyFloat.scaled m e ndigits
  = Spec.nearest_even (Z.pos m * 2 ^ Z.max e 0 * 10 ^ Z.of_nat ndigits)
      (2 ^ Z.max (- e) 0).
Proof.
  unfold PyFloat.scaled. destruct (Z.leb_spec 0 e) as [He|He].
  - rewrite Z.max_l, Z.max_r by lia. change (2 ^ 0) with 1.
    rewrite nearest_even_whole. lia.
  - rewrite Z.max_r, Z.max_l by lia. change (2 ^ 0) with 1.
    rewrite nearest_even_div by (apply Z.pow_pos_nonneg; lia).
    f_equal. lia.
Qed.

Lemma round_rounded x ndigits : PyFloat.round x ndigits = Spec.rounded x ndigits.
Proof.
  unfold PyFloat.round, Spec.rounded.
  destruct (Prim2SF x) as [| | |s m e]; try done.
  cbn zeta. by rewrite scaled_nearest_even.
Qed.

Lemma py_mul_times_100 v : is_number v -> py_mul v 100 = Spec.times_100 v.
Proof.
  destruct v as [| |z|f| | |]; try done; intros _; unfold py_mul, Spec.times_100;
    first [do 2 f_equal; lia | by rewrite of_quotient_100].
Qed.

Lemma py_truediv_per_1000 v : is_number v -> py_truediv v 1000 = Spec.per_1000 v.
Proof.
  destruct v as [| |z|f| | |]; try done; intros _; unfold py_truediv, Spec.per_1000;
    by rewrite ?of_quotient_1000.
Qed.

Lemma py_round_round_number v n : is_number v -> py_round v n = Spec.round_number v n.
Proof.
  destruct v as [| |z|f| | |]; try done; intros _; unfold py_round, Spec.round_number;
    by rewrite ?round_rounded.
Qed.

#[local] Arguments field : simpl never.

Ltac ok_step H := rewrite H; cbn [mbind res_bind].




(** The report of the example: 87.3, 2.35 s, 2.0 s, 16.0 ms, 0.024. *)
Example extract_metrics_audit_report :
  extract_metrics Demo.audit_report
  = Ok (Metrics (PFloat 87.3) (PFloat 2.35) (PFloat 2) (PFloat 16) (PFloat 0.024)).
Proof. vm_compute. reflexivity. Qed.

(** An empty report gives the defaults, the ints as ints. *)
Example extract_metrics_empty :
  extract_metrics (PDict [])
  = Ok (Metrics (PInt 0) (PFloat 0) (PFloat 0) (PInt 0) (PInt 0)).
Proof. vm_compute. reflexivity. Qed.

(** The fallback is an argument of the call, so it is evaluated even when
    the interaction-to-next-paint value is there: a first-input-delay entry
    that is not a dict makes the extraction raise. *)
Example extract_metrics_eager_fallback :
  extract_metrics
    (PDict [("audits",
             PDict [("interaction-to-next-paint", PDict [("numericValue", PInt 120)]);
                    ("first-input-delay", PNone)])])
  = Raise AttributeError.
Proof. vm_compute. reflexivity. Qed.

(** A null score, as the tool writes when the page did not load, is not a
    missing score: the product raises. *)
Example extract_metrics_null_score :
  extract_metrics
    (PDict [("categories", PDict [("performance", PDict [("score", PNone)])])])
  = Raise TypeError.
Proof. vm_compute. reflexivity. Qed.

(** ** The report name *)

Lemma str_app_cons c s t : String c s +:+ t = String c (s +:+ t).
Proof. reflexivity. Qed.

Lemma str_app_nil t : "" +:+ t = t.
Proof. reflexivity. Qed.

Lemma delim_not_unsafe c : Url.is_delim c = true -> Url.is_unsafe c = false.
Proof.
  unfold Url.is_delim. intros H.
  apply orb_true_iff in H as [H|H]; [apply orb_true_iff in H as [H|H]|];
    apply Ascii.eqb_eq in H; subst c; reflexivity.
Qed.

Lemma plain_host_char_safe c : Url.is_plain_host_char c = true -> Url.is_unsafe c = false.
Proof.
  unfold Url.is_plain_host_char. destruct (Url.is_unsafe c); [|done].
  by rewrite !andb_false_r.
Qed.

Lemma remove_unsafe_host host tail :
  Str.forallb Url.is_plain_host_char host = true ->
  Url.remove_unsafe (host +:+ tail) = host +:+ Url.remove_unsafe tail.
Proof.
  induction host as [|c host IH]; [done|].
  cbn [Str.forallb]. intros [Hc Hh]%andb_true_iff.
  rewrite !str_app_cons. cbn [Url.remove_unsafe].
  by rewrite (plain_host_char_safe c Hc), IH.
Qed.

Lemma until_delim_host host c rest :
  Str.forallb Url.is_plain_host_char host = true ->
  Url.is_delim c = true ->
  Url.until_delim (host +:+ String c rest) = host.
Proof.
  intros Hh Hc. induction host as [|a host IH].
  - rewrite str_app_nil. cbn [Url.until_delim]. by rewrite Hc.
  - cbn [Str.forallb] in Hh. apply andb_true_iff in Hh as [Ha Hh].
    rewrite str_app_cons. cbn [Url.until_delim].
    unfold Url.is_plain_host_char in Ha.
    assert (Url.is_delim a = false) as ->.
    { destruct (Url.is_delim a); [|done]. by rewrite !andb_false_r in Ha. }
    by rewrite IH.
Qed.

Lemma plain_host_checks host :
  Str.forallb Url.is_plain_host_char host = true ->
  Str.contains "[" host = false /\ Str.contains "]" host = false
  /\ Str.forallb Url.is_ascii host = true.
Proof.
  induction host as [|a host IH]; [done|].
  cbn [Str.forallb Str.contains]. intros [Ha Hh]%andb_true_iff.
  destruct (IH Hh) as (-> & -> & ->). unfold Url.is_plain_host_char in Ha.
  destruct (Url.is_ascii a), (Ascii.eqb a "["), (Ascii.eqb a "]");
    by rewrite ?andb_false_r in Ha.
Qed.

(** What [urlsplit] makes of the start of an http or https url. *)
Lemma strip_scheme_http scheme tail :
  scheme = "http" \/ scheme = "https" ->
  Url.strip_scheme (Url.remove_unsafe (Url.lstrip (scheme +:+ "://" +:+ tail)))
  = "//" +:+ Url.remove_unsafe tail.
Proof. intros [-> | ->]; reflexivity. Qed.

(** The host of an http or https url that goes on with a path, a query or
    a fragment. *)
Lemma netloc_of_plain_host check scheme host c rest :
  scheme = "http" \/ scheme = "https" ->
  Str.forallb Url.is_plain_host_char host = true ->
  Url.is_delim c = true ->
  Url.netloc check (scheme +:+ "://" +:+ host +:+ String c rest) = Ok host.
Proof.
  intros Hs Hh Hc. unfold Url.netloc.
  rewrite (strip_scheme_http scheme _ Hs), (remove_unsafe_host host _ Hh).
  cbn [Url.remove_unsafe]. rewrite (delim_not_unsafe c Hc).
  change ("//" +:+ ?t) with (String "/" (String "/" t)). cbn iota.
  rewrite (until_delim_host host c _ Hh Hc).
  destruct (plain_host_checks host Hh) as (-> & -> & ->). done.
Qed.

Lemma netloc_example check scheme path :
  scheme = "http" \/ scheme = "https" ->
  path = "" \/ (exists c rest, path = String c rest /\ Url.is_delim c = true) ->
  Url.netloc check (scheme +:+ "://www.example.com:443" +:+ path)
  = Ok "www.example.com:443".
Proof.
  intros Hs Hp.
  destruct Hp as [-> | (c & rest & -> & Hc)].
  - by destruct Hs as [-> | ->].
  - apply (netloc_of_plain_host check scheme "www.example.com:443" c rest Hs); [|done].
    vm_compute. reflexivity.
Qed.

(** C9: for a sitemap url whose host is [www.example.com:443], the domain
    part of the report name is [example.com]. *)
Theorem extract_domain_example E scheme path :
  scheme = "http" \/ scheme = "https" ->
  path = "" \/ (exists c rest, path = String c rest /\ Url.is_delim c = true) ->
  extract_domain E (scheme +:+ "://www.example.com:443" +:+ path) = Ok "example.com".
Proof.
  intros Hs Hp. unfold extract_domain.
  by rewrite (netloc_example _ scheme path Hs Hp).
Qed.

Lemma extract_domain_example_witness :
  extract_domain Demo.site "https://www.example.com:443/sitemap.xml" = Ok "example.com".
Proof.
  apply (extract_domain_example Demo.site "https" "/sitemap.xml").
  - right. reflexivity.
  - right. exists "/"%char, "sitemap.xml". split; reflexivity.
Defined.

(** [replace] takes every occurrence, not only a leading one. *)
Example extract_domain_inner_www E :
  extract_domain E "https://cdn.www.example.com/sitemap.xml" = Ok "cdn.example.com".
Proof. reflexivity. Qed.

Lemma last_char_app s t :
  Str.last_char (s +:+ t)
  = match Str.last_char t with
    | Some d => Some d
    | None => Str.last_char s
    end.
Proof.
  induction s as [|c s IH].
  - change ("" +:+ t) with t. by destruct (Str.last_char t).
  - change (String c s +:+ t) with (String c (s +:+ t)).
    cbn [Str.last_char]. rewrite IH. by destruct (Str.last_char t).
Qed.

Lemma last_char_artifact E w : Str.last_char (artifact_name E w) = Some "n"%char.
Proof. unfold artifact_name. by rewrite !last_char_app. Qed.

(** ** The sitemap reader *)

(** Induction on a document, with the property known of the children. *)
Lemma element_ind_nested (P : element -> Prop) :
  (forall t x cs, Forall P cs -> P (Element t x cs)) -> forall e, P e.
Proof.
  intros step. fix IH 1. intros [t x cs]. apply step.
  induction cs as [|c cs IHcs]; constructor; [apply IH | exact IHcs].
Qed.

Lemma qualified_inj a b : qualified a = qualified b -> a = b.
Proof. unfold qualified. intros H. by simplify_eq/=. Qed.

Lemma tag_qualify e : tag (qualify e) = qualified (tag e).
Proof. by destruct e. Qed.

Lemma text_qualify e : text (qualify e) = text e.
Proof. by destruct e. Qed.

Lemma children_qualify e : children (qualify e) = map qualify (children e).
Proof. by destruct e. Qed.

Lemma filter_tag_qualify name (l : list element) :
  filter (fun e => tag e = qualified name) (map qualify l)
  = map qualify (filter (fun e => tag e = name) l).
Proof.
  induction l as [|e l IH]; [done|].
  cbn [map]. rewrite !filter_cons, IH, tag_qualify.
  destruct (decide (tag e = name)) as [->|Hne].
  - by rewrite decide_True.
  - rewrite decide_False; [done|]. intros H. by apply qualified_inj in H.
Qed.

Lemma iter_qualify e : iter (qualify e) = map qualify (iter e).
Proof.
  induction e as [t x cs IH] using element_ind_nested.
  cbn [qualify iter map]. f_equal.
  induction IH as [|c cs Hc _ IHcs]; [done|].
  cbn [map flat_map]. by rewrite map_app, Hc, IHcs.
Qed.

Lemma descendants_qualify (cs : list element) :
  flat_map iter (map qualify cs) = map qualify (flat_map iter cs).
Proof.
  induction cs as [|c cs IH]; [done|].
  cbn [map flat_map]. by rewrite map_app, iter_qualify, IH.
Qed.

Lemma find_children_qualify name e :
  find_children (qualified name) (qualify e) = map qualify (find_children name e).
Proof. unfold find_children. by rewrite children_qualify, filter_tag_qualify. Qed.

Lemma find_descendants_qualify name e :
  find_descendants (qualified name) (qualify e) = map qualify (find_descendants name e).
Proof.
  unfold find_descendants.
  by rewrite children_qualify, descendants_qualify, filter_tag_qualify.
Qed.

(** In a document with qualified tags the path finds the [url/loc] entries. *)
Lemma findall_qualify root :
  text <$> findall_url_loc (qualify root) = url_loc_entries root.
Proof.
  unfold findall_url_loc, url_loc_entries.
  rewrite find_descendants_qualify.
  induction (find_descendants "url" root) as [|u us IH]; [done|].
  cbn [map flat_map]. rewrite !fmap_app, IH. f_equal.
  rewrite find_children_qualify.
  induction (find_children "loc" u) as [|c cs IHc]; [done|].
  cbn. by rewrite text_qualify, <- IHc.
Qed.

(** In a document without namespace it finds nothing. *)
Lemma findall_plain root :
  plain_tags root -> findall_url_loc root = [].
Proof.
  intros Hp. unfold findall_url_loc.
  assert (find_descendants (qualified "url") root = []) as ->; [|done].
  unfold find_descendants, plain_tags in *. apply forallb_True in Hp.
  destruct root as [t x cs]. cbn [children iter] in *.
  apply Forall_cons_1 in Hp as [_ Hp].
  induction Hp as [|d ds Hd _ IH]; [done|].
  rewrite filter_cons, decide_False; [done|].
  intros Ht. by rewrite Ht in Hd.
Qed.

(** *** The order of the entries *)

Lemma flat_sitemap_flat_at root : flat_sitemap root -> Forall flat_at (iter root).
Proof.
  unfold flat_sitemap. intros H%forallb_True.
  eapply Forall_impl; [exact H|]. intros e He Ht. cbn beta in He.
  apply orb_True in He as [He|He].
  - apply negb_True in He. apply String.eqb_eq in Ht. by rewrite Ht in He.
  - apply bool_decide_unpack in He. by apply nil_length_inv.
Qed.

Lemma children_in_document_order (cs : list element) : cs `sublist_of` flat_map iter cs.
Proof.
  induction cs as [|[t x kids] cs IH]; [constructor|].
  cbn [flat_map iter]. apply sublist_skip. by apply sublist_inserts_l.
Qed.

Lemma locs_in_document_order e :
  Forall flat_at (iter e) ->
  flat_map (find_children (qualified "loc")) (filter (fun d => tag d = qualified "url") (iter e))
  `sublist_of` iter e.
Proof.
  induction e as [t x cs IH] using element_ind_nested.
  cbn [iter]. intros [He Hd]%Forall_cons_1.
  assert (flat_map (find_children (qualified "loc"))
            (filter (fun d => tag d = qualified "url") (flat_map iter cs))
          `sublist_of` flat_map iter cs) as Hbelow.
  { clear He. induction IH as [|c cs Hc _ IHcs]; [constructor|].
    cbn [flat_map] in *. apply Forall_app in Hd as [Hd1 Hd2].
    rewrite filter_app, flat_map_app. apply sublist_app; auto. }
  rewrite filter_cons. destruct (decide (tag (Element t x cs) = qualified "url")) as [Ht|Ht].
  - cbn [flat_map]. specialize (He Ht). unfold find_descendants in He. cbn [children] in He.
    rewrite He. cbn [flat_map]. rewrite app_nil_r.
    apply sublist_cons. unfold find_children. cbn [children].
    etrans; [apply sublist_filter; apply _ | apply children_in_document_order].
  - by apply sublist_cons.
Qed.

Lemma findall_in_document_order root :
  flat_sitemap root -> findall_url_loc root `sublist_of` iter root.
Proof.
  intros Hflat%flat_sitemap_flat_at.
  pose proof (locs_in_document_order root Hflat) as H.
  destruct root as [t x cs]. cbn [iter] in *.
  unfold findall_url_loc, find_descendants. cbn [children].
  rewrite filter_cons in H. destruct (decide _) as [Ht|Ht] in H.
  - apply Forall_cons_1 in Hflat as [He _]. specialize (He Ht).
    unfold find_descendants in He. cbn [children] in He. rewrite He.
    apply sublist_nil_l.
  - exact H.
Qed.

(** Nested [url] elements would be listed outer first. *)
Example findall_nested :
  text <$> findall_url_loc
             (qualify (Element "urlset" None
                         [Element "url" None
                            [Element "url" None [Element "loc" (Some "a") []];
                             Element "loc" (Some "b") []]]))
  = [Some "b"; Some "a"].
Proof. vm_compute. reflexivity. Qed.

Lemma get_urls_from_sitemap_served E sitemap_url w status_code root :
  requests_get E (tick w) sitemap_url = Response status_code (Ok root) ->
  raise_for_status status_code = Ok tt ->
  (get_urls_from_sitemap E sitemap_url w).1 = text <$> findall_url_loc root.
Proof.
  intros Hget Hst. unfold get_urls_from_sitemap, get_urls_from_sitemap_try.
  by rewrite Hget, Hst.
Qed.

(** C7, as the code has it: the reader lists the [url/loc] entries of a
    document whose tags are in the sitemap namespace, and lists nothing for
    the same document written without the namespace; so does the reader of
    the earlier variant. *)
Theorem reader_needs_the_namespace E E' sitemap_url w root :
  plain_tags root ->
  requests_get E (tick w) sitemap_url = Response 200 (Ok (qualify root)) ->
  requests_get E' (tick w) sitemap_url = Response 200 (Ok root) ->
  (get_urls_from_sitemap E sitemap_url w).1 = url_loc_entries root
  /\ (get_urls_from_sitemap E' sitemap_url w).1 = []
  /\ (App2.get_urls_from_sitemap E sitemap_url w).1 = Ok (url_loc_entries root)
  /\ (App2.get_urls_from_sitemap E' sitemap_url w).1 = Ok [].
Proof.
  intros Hp Hq Hu. split_and!.
  - rewrite (get_urls_from_sitemap_served _ _ _ _ _ Hq); [|done].
    apply findall_qualify.
  - rewrite (get_urls_from_sitemap_served _ _ _ _ _ Hu); [|done].
    by rewrite findall_plain.
  - unfold App2.get_urls_from_sitemap. rewrite Hq. cbn. by rewrite findall_qualify.
  - unfold App2.get_urls_from_sitemap. rewrite Hu. cbn. by rewrite findall_plain.
Qed.

Lemma reader_needs_the_namespace_witness :
  (get_urls_from_sitemap Demo.site Demo.sitemap_url Demo.empty_world).1
  = [Some Demo.page_a; Some Demo.page_b]
  /\ (get_urls_from_sitemap (Demo.serving Demo.sitemap_doc) Demo.sitemap_url
        Demo.empty_world).1 = [].
Proof.
  destruct (reader_needs_the_namespace Demo.site (Demo.serving Demo.sitemap_doc)
              Demo.sitemap_url Demo.empty_world Demo.sitemap_doc)
    as (H1 & H2 & _); [vm_compute; exact I | reflexivity | reflexivity |].
  split; [exact H1 | exact H2].
Defined.

(** C7, as stated, fails: the sitemap of the example without the namespace
    does not give the url list of its namespaced form. *)
Lemma unqualified_sitemap_differs :
  (get_urls_from_sitemap (Demo.serving Demo.sitemap_doc) Demo.sitemap_url
     Demo.empty_world).1
  <> (get_urls_from_sitemap (Demo.serving (qualify Demo.sitemap_doc)) Demo.sitemap_url
        Demo.empty_world).1.
Proof. vm_compute. discriminate. Qed.

Lemma get_urls_from_sitemap_fails E sitemap_url w :
  fetch_fails E sitemap_url w -> (get_urls_from_sitemap E sitemap_url w).1 = [].
Proof.
  unfold get_urls_from_sitemap, get_urls_from_sitemap_try.
  intros [Hget | status_code body Hget Hst | status_code e Hget]; rewrite Hget; [done| |].
  - unfold raise_for_status.
    assert ((400 <=? status_code) && (status_code <? 600) = true) as -> by lia. done.
  - by destruct (raise_for_status status_code) as [[]|].
Qed.

(** ** The audit invoker *)

Section Audit.

Variable E : env.

Lemma files_write_opt path wrote w :
  files (write_opt path wrote w) !! path
  = match wrote with
    | Some c => Some c
    | None => files w !! path
    end.
Proof. destruct wrote; [|done]. cbn. by rewrite lookup_insert_eq. Qed.

(** Every failure comes back as the error values. *)
Lemma run_lighthouse_fails url w :
  audit_fails E w url -> (run_lighthouse E url w).1 = default_error_values.
Proof.
  intros Hf. unfold run_lighthouse, run_lighthouse_try.
  fold (artifact_name E w). cbn [tick next record].
  destruct Hf as [|u Hp|u wrote Hp|u e Hp|u wrote Hp Hr|u wrote c Hp Hr Hj
                  |u wrote data e Hp Hr Hx];
    [done|rewrite Hp..]; [done|done|by destruct e| | |].
  - rewrite files_write_opt. unfold artifact_read in Hr. cbn. by rewrite Hr.
  - rewrite files_write_opt. unfold artifact_read in Hr.
    cbn [files next record]. rewrite Hr. by rewrite Hj.
  - rewrite files_write_opt. unfold artifact_read in Hr.
    cbn [files next record]. rewrite Hr.
    cbn [json_load]. rewrite Hx. by destruct e.
Qed.

(** What is returned is the error values or an extracted set. *)
Lemma run_lighthouse_result url w :
  (run_lighthouse E url w).1 = default_error_values
  \/ exists data, extract_metrics data = Ok (run_lighthouse E url w).1.
Proof.
  unfold run_lighthouse, run_lighthouse_try.
  destruct url as [u|]; [|by left].
  destruct (lighthouse _ _ _ _) as [|wrote|e|wrote];
    [by left | by left | by destruct e; left |].
  destruct (files _ !! _) as [c|]; [|by left].
  destruct c as [rows|v|]; cbn [json_load]; [by left| |by left].
  destruct (extract_metrics v) as [m|[]] eqn:Hx; eauto.
Qed.

Lemma run_lighthouse_no_mix url w :
  all_numbers (run_lighthouse E url w).1 \/ all_error (run_lighthouse E url w).1.
Proof.
  destruct (run_lighthouse_result url w) as [->|[data Hd]]; [by right | left].
  by eapply extract_metrics_numbers.
Qed.

Lemma run_lighthouse_log url w :
  log (run_lighthouse E url w).2 = log w ++ [Audited url].
Proof.
  unfold run_lighthouse, run_lighthouse_try.
  destruct url as [u|]; [|done].
  destruct (lighthouse _ _ _ _) as [|wrote|e|wrote];
    [done | by destruct wrote | by destruct e |].
  set (w1 := write_opt _ _ _).
  assert (log w1 = log w ++ [Audited (Some u)]) as Hl by (subst w1; by destruct wrote).
  destruct (files w1 !! _) as [c|]; [|done].
  destruct c as [rows|v|]; cbn [json_load]; [done| |done].
  by destruct (extract_metrics v) as [m|[]].
Qed.

(** Only the temporary file is touched. *)
Lemma run_lighthouse_files url w path :
  path <> artifact_name E w ->
  files (run_lighthouse E url w).2 !! path = files w !! path.
Proof.
  intros Hne. unfold run_lighthouse, run_lighthouse_try.
  fold (artifact_name E w).
  destruct url as [u|]; [|done].
  destruct (lighthouse _ _ _ _) as [|wrote|e|wrote]; [done| |by destruct e|].
  - destruct wrote; [|done]. cbn. by rewrite lookup_insert_ne.
  - set (w1 := write_opt _ _ _).
    assert (files w1 !! path = files w !! path) as Hl.
    { subst w1. destruct wrote; [|done]. cbn. by rewrite lookup_insert_ne. }
    destruct (files w1 !! artifact_name E w) as [c|]; [|done].
    destruct c as [rows|v|]; cbn [json_load]; [done| |done].
    assert (files (remove (artifact_name E w) w1) !! path = files w !! path) as Hr.
    { cbn. by rewrite lookup_delete_ne. }
    by destruct (extract_metrics v) as [m|[]].
Qed.

(** The temporary file is removed once it has been decoded. *)
Lemma artifact_removed_when_decoded u w wrote data :
  lighthouse E (S (tick w)) u (artifact_name E w) = Exited wrote ->
  artifact_read E w wrote = Some (Json data) ->
  files (run_lighthouse E (Some u) w).2 !! artifact_name E w = None.
Proof.
  intros Hp Hr. unfold run_lighthouse, run_lighthouse_try.
  fold (artifact_name E w). cbn [tick next record]. rewrite Hp.
  rewrite files_write_opt. unfold artifact_read in Hr.
  cbn [files next record]. rewrite Hr. cbn [json_load].
  assert (forall w1, files (remove (artifact_name E w) w1) !! artifact_name E w = None)
    as Hgone by (intros w1; cbn; by rewrite lookup_delete_eq).
  destruct (extract_metrics data) as [m|[]]; cbn [snd]; apply Hgone.
Qed.

(** It stays when the tool left a text that does not decode. *)
Lemma artifact_left_when_not_decoded u w c :
  lighthouse E (S (tick w)) u (artifact_name E w) = Exited (Some c) ->
  json_load c = Raise JSONDecodeError ->
  files (run_lighthouse E (Some u) w).2 !! artifact_name E w = Some c.
Proof.
  intros Hp Hj. unfold run_lighthouse, run_lighthouse_try.
  fold (artifact_name E w). cbn [tick next record]. rewrite Hp.
  rewrite files_write_opt, Hj. cbn. by rewrite lookup_insert_eq.
Qed.

End Audit.

(** C5, where the code departs from it: the tool exits leaving a text that
    is not JSON; the audit returns the error values and the temporary file is
    still there. *)
Theorem artifact_left_after_parse_error :
  (run_lighthouse Demo.truncating (Some Demo.page_a) Demo.empty_world).1
  = default_error_values
  /\ files (run_lighthouse Demo.truncating (Some Demo.page_a) Demo.empty_world).2
     !! "lighthouse_report_20240101_120000.json" = Some Garbage.
Proof. split; [reflexivity|]. vm_compute. reflexivity. Qed.

(** On the path where the report decodes, the file is gone. *)
Example artifact_removed_after_success :
  files (run_lighthouse Demo.site (Some Demo.page_a) Demo.empty_world).2
  !! "lighthouse_report_20240101_120000.json" = None.
Proof. vm_compute. reflexivity. Qed.

(** ** The log of a run *)

Lemma sleeps_app l1 l2 : sleeps (l1 ++ l2) = sleeps l1 ++ sleeps l2.
Proof. apply omap_app. Qed.

Lemma audits_app l1 l2 : audits (l1 ++ l2) = audits l1 ++ audits l2.
Proof. apply omap_app. Qed.

Lemma sleeps_loop_log delay urls :
  sleeps (loop_log delay urls) = replicate (length urls - 1) delay.
Proof.
  induction urls as [|u [|u' rest] IH]; [done..|].
  change (sleeps (loop_log delay (u :: u' :: rest)))
    with (delay :: sleeps (loop_log delay (u' :: rest))).
  rewrite IH. cbn [length]. by rewrite !Nat.sub_succ, !Nat.sub_0_r.
Qed.

Lemma audits_loop_log delay urls : audits (loop_log delay urls) = urls.
Proof.
  induction urls as [|u [|u' rest] IH]; [done..|].
  change (audits (loop_log delay (u :: u' :: rest)))
    with (u :: audits (loop_log delay (u' :: rest))).
  by rewrite IH.
Qed.

Lemma last_loop_log delay urls : last (loop_log delay urls) = Audited <$> last urls.
Proof.
  induction urls as [|u [|u' rest] IH]; [done..|].
  change (loop_log delay (u :: u' :: rest))
    with (Audited u :: Slept delay :: loop_log delay (u' :: rest)).
  rewrite !last_cons_cons, (last_cons (Slept delay)), IH, (last_cons u' rest).
  by destruct (last rest).
Qed.

Lemma sum_list_replicate n d : sum_list (replicate n d) = Z.of_nat n * d.
Proof.
  induction n as [|n IH]; [done|].
  change (sum_list (replicate (S n) d)) with (d + sum_list (replicate n d)).
  rewrite IH. lia.
Qed.

(** ** Runs of [main] *)

Section Runs.

Variables (E : env) (sitemap_url : string) (delay : Z).

(** What [time.sleep] does, by the length asked for. *)
Lemma time_sleep_cases secs w :
  time_sleep secs w
  = if (secs <? -9223372036) || (9223372036 <? secs) then (Raise OverflowError, w)
    else if secs <? 0 then (Raise ValueError, w)
    else (Ok tt, record (Slept secs) w).
Proof. reflexivity. Qed.

Lemma time_sleep_ok secs w :
  0 <= secs <= 9223372036 -> time_sleep secs w = (Ok tt, record (Slept secs) w).
Proof.
  intros Hs. rewrite time_sleep_cases.
  assert ((secs <? -9223372036) = false) as -> by lia.
  assert ((9223372036 <? secs) = false) as -> by lia.
  assert ((secs <? 0) = false) as -> by lia. done.
Qed.

Lemma time_sleep_negative secs w :
  -9223372036 <= secs < 0 -> time_sleep secs w = (Raise ValueError, w).
Proof.
  intros Hs. rewrite time_sleep_cases.
  assert ((secs <? -9223372036) = false) as -> by lia.
  assert ((9223372036 <? secs) = false) as -> by lia.
  assert ((secs <? 0) = true) as -> by lia. done.
Qed.

Lemma time_sleep_overflow secs w :
  secs < -9223372036 \/ 9223372036 < secs -> time_sleep secs w = (Raise OverflowError, w).
Proof.
  intros Hs. rewrite time_sleep_cases.
  assert ((secs <? -9223372036) || (9223372036 <? secs) = true) as -> by lia. done.
Qed.

(** The sleep is slept or refused by its length alone. *)
Lemma time_sleep_outcome secs :
  0 <= secs <= 9223372036 \/ exists e, forall w, time_sleep secs w = (Raise e, w).
Proof.
  destruct (Z.le_gt_cases 0 secs) as [H0|H0].
  - destruct (Z.le_gt_cases secs 9223372036) as [H1|H1]; [by left|].
    right. exists OverflowError. intros w. apply time_sleep_overflow. lia.
  - right. destruct (Z.le_gt_cases (-9223372036) secs) as [H1|H1].
    + exists ValueError. intros w. apply time_sleep_negative. lia.
    + exists OverflowError. intros w. apply time_sleep_overflow. lia.
Qed.

Lemma time_sleep_files secs w : files (time_sleep secs w).2 = files w.
Proof.
  rewrite time_sleep_cases.
  by destruct (_ || _); [|destruct (secs <? 0)].
Qed.

Lemma report_is_frame w w' path urls :
  files w' !! path = files w !! path ->
  report_is E w path urls -> report_is E w' path urls.
Proof. unfold report_is, report. by intros ->. Qed.

(** The row the program writes is the row of the report, cell by cell. *)
Lemma report_row_of url w t :
  row_of E url
    (report_row url (run_lighthouse E url w).1
       (strftime_now E t "%Y-%m-%d %H:%M:%S")).
Proof.
  exists w, t. cbn zeta. split; [by destruct url|]. apply run_lighthouse_no_mix.
Qed.

Lemma report_is_append w path urls url w1 t :
  report_is E w path urls ->
  report_is E
    (append_row path
       (report_row url (run_lighthouse E url w1).1
          (strftime_now E t "%Y-%m-%d %H:%M:%S")) w)
    path (urls ++ [url]).
Proof.
  intros (rows & Hrep & Hrows). unfold report in Hrep.
  destruct (files w !! path) as [[rs|v|]|] eqn:Hf; try done.
  injection Hrep as ->. eexists (rows ++ [_]).
  split.
  - unfold report, append_row. rewrite Hf. cbn. by rewrite lookup_insert_eq.
  - apply Forall2_app; [done|]. repeat constructor. apply report_row_of.
Qed.

Lemma run_invariant_step w0 c c' :
  run_invariant E sitemap_url w0 c ->
  main_step E sitemap_url delay c = Some c' ->
  run_invariant E sitemap_url w0 c'.
Proof.
  destruct c as [st w]. unfold run_invariant. cbn [fst snd].
  destruct st as [|csv|csv urls|csv urls done|csv urls done url result|csv urls i| | |e];
    cbn [main_step]; intros Hinv Hstep.
  - destruct (extract_domain E sitemap_url) as [domain|e]; simplify_eq/=; [|done].
    split; [|done]. by rewrite !last_char_app.
  - destruct Hinv as [Hcsv ->].
    destruct (get_urls_from_sitemap E sitemap_url (next w0)) as [urls w'] eqn:Hg.
    assert (urls = discovered E sitemap_url w0) by (unfold discovered; by rewrite Hg).
    destruct urls; by simplify_eq/=.
  - destruct Hinv as [Hcsv ->]. simplify_eq/=. split_and!; [done|done|lia|].
    exists []. split; [|constructor].
    unfold report. cbn. by rewrite lookup_insert_eq.
  - destruct Hinv as (Hcsv & -> & Hle & Hrep).
    destruct (discovered E sitemap_url w0 !! done) as [url|] eqn:Hl.
    + pose proof (run_lighthouse_files E url w csv) as Hfiles.
      assert (exists w1, (run_lighthouse E url w).1 = (run_lighthouse E url w1).1)
        as Hres by by exists w.
      destruct (run_lighthouse E url w) as [result w']. simplify_eq/=.
      split_and!; [done..|].
      eapply report_is_frame; [|done].
      apply Hfiles. intros Hn.
      pose proof (last_char_artifact E w) as Ha. rewrite <- Hn in Ha. congruence.
    + simplify_eq/=. split; [done|]. apply lookup_ge_None in Hl.
      by rewrite take_ge in Hrep by lia.
  - destruct Hinv as (Hcsv & -> & Hl & [w1 ->] & Hrep). simplify_eq/=.
    split_and!; [done..| |].
    + apply lookup_lt_Some in Hl. lia.
    + erewrite take_S_r by done. apply report_is_append.
      by eapply report_is_frame.
  - destruct Hinv as (Hcsv & -> & Hle & Hrep).
    destruct (i <? length _)%nat; [|by simplify_eq/=].
    pose proof (time_sleep_files delay w) as Hfiles.
    destruct (time_sleep delay w) as [[[]|e] w']; simplify_eq/=; [|done].
    split_and!; [done..|]. eapply report_is_frame; [|done]. by rewrite Hfiles.
  - done.
  - done.
  - done.
Qed.

Lemma run_invariant_run w0 n c :
  run_invariant E sitemap_url w0 c ->
  run_invariant E sitemap_url w0 (run E sitemap_url delay n c).
Proof.
  revert c. induction n as [|n IH]; intros c Hc; [done|].
  cbn [run]. destruct (main_step E sitemap_url delay c) as [c'|] eqn:Hs; [|done].
  apply IH. by eapply run_invariant_step.
Qed.

Lemma run_invariant_progress w0 c csv urls k :
  run_invariant E sitemap_url w0 c ->
  progress c.1 = Some (csv, urls, k) ->
  urls = discovered E sitemap_url w0 /\ (k <= length urls)%nat
  /\ report_is E c.2 csv (take k urls).
Proof.
  destruct c as [st w]. unfold run_invariant.
  destruct st; cbn; intros Hinv Hp; try discriminate; injection Hp as <- <- <-.
  - by destruct Hinv as (_ & ? & ? & ?).
  - destruct Hinv as (_ & ? & Hl & _ & ?). split_and!; [done| |done].
    apply lookup_lt_Some in Hl. lia.
  - by destruct Hinv as (_ & ? & ? & ?).
  - destruct Hinv as [? ?]. split_and!; [done..|]. by rewrite firstn_all.
Qed.

Lemma report_after_steps w0 n csv urls k :
  progress (run E sitemap_url delay n (Start, w0)).1 = Some (csv, urls, k) ->
  urls = discovered E sitemap_url w0 /\ (k <= length urls)%nat
  /\ report_is E (run E sitemap_url delay n (Start, w0)).2 csv (take k urls).
Proof. apply run_invariant_progress, run_invariant_run. done. Qed.

Lemma run_stuck n c :
  main_step E sitemap_url delay c = None -> run E sitemap_url delay n c = c.
Proof. intros H. destruct n; [done|]. cbn. by rewrite H. Qed.

Lemma run_add n m c :
  run E sitemap_url delay (n + m) c
  = run E sitemap_url delay m (run E sitemap_url delay n c).
Proof.
  revert c. induction n as [|n IH]; intros c; [done|].
  cbn [Nat.add run]. destruct (main_step E sitemap_url delay c) eqn:Hs; [apply IH|].
  by rewrite run_stuck.
Qed.

(** The points of a run are the states [run] passes through. *)
Lemma run_reachable n c :
  rtc (step E sitemap_url delay) c (run E sitemap_url delay n c).
Proof.
  revert c. induction n as [|n IH]; intros c; [done|].
  cbn [run]. destruct (main_step E sitemap_url delay c) as [c'|] eqn:Hs; [|done].
  by eapply rtc_l.
Qed.

Lemma reachable_run c c' :
  rtc (step E sitemap_url delay) c c' -> exists n, run E sitemap_url delay n c = c'.
Proof.
  induction 1 as [c|c c1 c' Hs _ [n Hn]]; [by exists 0%nat|].
  exists (S n). cbn [run]. by rewrite Hs.
Qed.

(** At every point of a run from the loop on, the report is the header
    and the rows of the urls processed so far. *)
Lemma report_at_every_point w0 st w csv urls k :
  rtc (step E sitemap_url delay) (Start, w0) (st, w) ->
  progress st = Some (csv, urls, k) ->
  urls = discovered E sitemap_url w0 /\ (k <= length urls)%nat
  /\ report_is E w csv (take k urls).
Proof.
  intros [n Hn]%reachable_run Hp.
  pose proof (report_after_steps w0 n csv urls k) as Hrep.
  rewrite Hn in Hrep. by apply Hrep.
Qed.

(** One turn of the loop, when the delay can be slept or the url is the
    last. *)
Lemma loop_turn csv urls done url w :
  0 <= delay <= 9223372036 \/ (length urls <= S done)%nat ->
  urls !! done = Some url ->
  exists w',
    run E sitemap_url delay 3 (Measure csv urls done, w)
    = (Measure csv urls (S done), w')
    /\ log w' = log w ++ Audited url
                  :: (if (S done <? length urls)%nat then [Slept delay] else []).
Proof.
  intros Hd Hl. cbn [run main_step]. rewrite Hl.
  pose proof (run_lighthouse_log E url w) as Hlog.
  destruct (run_lighthouse E url w) as [result w1]. cbn [snd] in Hlog.
  cbn [main_step].
  assert (forall row, log (append_row csv row (next w1)) = log w ++ [Audited url])
    as Hrow.
  { intros row. unfold append_row. by destruct (files _ !! csv) as [[]|]. }
  destruct (Nat.ltb_spec (S done) (length urls)) as [Hlt|Hge].
  - rewrite time_sleep_ok by lia. eexists; split; [done|].
    cbn [record log]. rewrite Hrow. by rewrite <- app_assoc.
  - eexists; split; [done|]. by rewrite Hrow.
Qed.

(** The loop from any point to its end. *)
Lemma loop_to_end csv urls k : forall done w,
  0 <= delay <= 9223372036 \/ (k <= 1)%nat ->
  (done + k = length urls)%nat ->
  exists w',
    run E sitemap_url delay (3 * k + 1) (Measure csv urls done, w)
    = (Finished csv urls, w')
    /\ log w' = log w ++ loop_log delay (drop done urls).
Proof.
  induction k as [|k IH]; intros done w Hd Hlen.
  - exists w. cbn [run main_step Nat.mul Nat.add].
    rewrite lookup_ge_None_2 by lia. rewrite drop_ge by lia.
    by rewrite app_nil_r.
  - destruct (lookup_lt_is_Some_2 urls done) as [url Hl]; [lia|].
    destruct (loop_turn csv urls done url w) as (w1 & Hrun & Hlog); [lia|done|].
    destruct (IH (S done) w1) as (w' & Hrun' & Hlog'); [lia|lia|].
    exists w'. replace (3 * S k + 1)%nat with (3 + (3 * k + 1))%nat by lia.
    rewrite run_add, Hrun, Hrun'. split; [done|].
    rewrite Hlog', Hlog, <- app_assoc. f_equal.
    rewrite (drop_S _ _ _ Hl). cbn [loop_log app]. f_equal.
    destruct (drop (S done) urls) as [|u rest] eqn:Hdrop.
    + assert (length (drop (S done) urls) = 0%nat) as Hz by by rewrite Hdrop.
      rewrite length_drop in Hz.
      assert ((S done <? length urls)%nat = false) as -> by (apply Nat.ltb_ge; lia).
      done.
    + assert (length (drop (S done) urls) <> 0%nat) as Hz by by rewrite Hdrop.
      rewrite length_drop in Hz.
      assert ((S done <? length urls)%nat = true) as -> by (apply Nat.ltb_lt; lia).
      done.
Qed.

(** From the start to the loop. *)
Lemma start_to_loop w0 domain :
  extract_domain E sitemap_url = Ok domain ->
  discovered E sitemap_url w0 <> [] ->
  exists csv w,
    run E sitemap_url delay 3 (Start, w0)
    = (Measure csv (discovered E sitemap_url w0) 0, w)
    /\ log w = log w0 ++ [Fetched sitemap_url].
Proof.
  intros Hdom Hne. cbn [run main_step]. rewrite Hdom. cbn [run main_step].
  unfold discovered in *.
  destruct (get_urls_from_sitemap E sitemap_url (next w0)) as [urls w1] eqn:Hg.
  cbn [fst] in *. destruct urls as [|u urls]; [done|].
  cbn [run main_step]. eexists _, _. split; [done|]. cbn [write log].
  unfold get_urls_from_sitemap in Hg.
  by destruct (get_urls_from_sitemap_try _ _ _); simplify_eq/=.
Qed.

(** With urls to measure and a delay that can be slept, [main] finishes,
    all urls audited. *)
Lemma main_finishes w0 domain :
  0 <= delay <= 9223372036 \/ (length (discovered E sitemap_url w0) <= 1)%nat ->
  extract_domain E sitemap_url = Ok domain ->
  discovered E sitemap_url w0 <> [] ->
  exists csv w,
    main E sitemap_url delay w0 = (Finished csv (discovered E sitemap_url w0), w)
    /\ log w
       = log w0 ++ Fetched sitemap_url :: loop_log delay (discovered E sitemap_url w0).
Proof.
  intros Hd Hdom Hne.
  destruct (start_to_loop w0 domain Hdom Hne) as (csv & w1 & Hrun & Hlog).
  destruct (loop_to_end csv (discovered E sitemap_url w0)
              (length (discovered E sitemap_url w0)) 0%nat w1 Hd)
    as (w & Hrun' & Hlog'); [done|].
  exists csv, w. unfold main, steps_of.
  replace (3 * length (discovered E sitemap_url w0) + 4)%nat
    with (3 + (3 * length (discovered E sitemap_url w0) + 1))%nat by lia.
  rewrite run_add, Hrun, Hrun'. split; [done|].
  by rewrite Hlog', Hlog, <- app_assoc.
Qed.

(** With more than one url and a delay that [time.sleep] refuses, [main]
    crashes at the first sleep, one row written. *)
Lemma main_crashes_at_first_sleep w0 domain e :
  (forall w, time_sleep delay w = (Raise e, w)) ->
  extract_domain E sitemap_url = Ok domain ->
  (2 <= length (discovered E sitemap_url w0))%nat ->
  exists csv w,
    main E sitemap_url delay w0 = (Crashed e, w)
    /\ report_is E w csv (take 1 (discovered E sitemap_url w0))
    /\ sleeps (log w) = sleeps (log w0).
Proof.
  intros Hd Hdom Hlen.
  assert (discovered E sitemap_url w0 <> []) as Hne.
  { intros Hnil. rewrite Hnil in Hlen. cbn in Hlen. lia. }
  destruct (start_to_loop w0 domain Hdom Hne) as (csv & w1 & Hrun & Hlog).
  destruct (lookup_lt_is_Some_2 (discovered E sitemap_url w0) 0) as [url Hl]; [lia|].
  pose proof (run_lighthouse_log E url w1) as Hlog2.
  destruct (run_lighthouse E url w1) as [result w2] eqn:Hr. cbn [snd] in Hlog2.
  set (w3 := append_row csv
               (report_row url result (strftime_now E (tick w2) "%Y-%m-%d %H:%M:%S"))
               (next w2)).
  assert (run E sitemap_url delay 5 (Start, w0)
          = (Delay csv (discovered E sitemap_url w0) 1, w3)) as Hrun5.
  { change 5%nat with (3 + 2)%nat. rewrite run_add, Hrun.
    cbn [run main_step]. rewrite Hl, Hr. done. }
  exists csv, w3. split_and!.
  - unfold main, steps_of.
    replace (3 * length (discovered E sitemap_url w0) + 4)%nat
      with (5 + (3 * length (discovered E sitemap_url w0) - 1))%nat by lia.
    rewrite run_add, Hrun5.
    destruct (3 * length (discovered E sitemap_url w0) - 1)%nat as [|n] eqn:Hn; [lia|].
    cbn [run main_step].
    assert ((1 <? length (discovered E sitemap_url w0))%nat = true) as ->
      by (apply Nat.ltb_lt; lia).
    rewrite Hd. by rewrite run_stuck.
  - pose proof (report_after_steps w0 5 csv (discovered E sitemap_url w0) 1) as Hinv.
    rewrite Hrun5 in Hinv. by destruct Hinv as (_ & _ & ?).
  - assert (log w3 = log w2) as -> by (unfold w3, append_row; by destruct (files _ !! csv) as [[]|]).
    rewrite Hlog2, Hlog, !sleeps_app. cbn. by rewrite !app_nil_r.
Qed.

(** A run that finds no url stops after the discovery, the files as they
    were and nothing audited. *)
Lemma run_without_urls w0 domain :
  extract_domain E sitemap_url = Ok domain ->
  discovered E sitemap_url w0 = [] ->
  exists w,
    (forall n, (2 <= n)%nat -> run E sitemap_url delay n (Start, w0) = (Returned, w))
    /\ files w = files w0
    /\ log w = log w0 ++ [Fetched sitemap_url].
Proof.
  intros Hdom Hnil. unfold discovered in Hnil.
  exists (get_urls_from_sitemap E sitemap_url (next w0)).2.
  split_and!.
  - intros n Hn. destruct n as [|[|n]]; [lia..|].
    cbn [run main_step]. rewrite Hdom. cbn [run main_step].
    destruct (get_urls_from_sitemap E sitemap_url (next w0)) as [urls w1].
    cbn [fst snd] in *. subst urls. by rewrite run_stuck.
  - unfold get_urls_from_sitemap. by destruct (get_urls_from_sitemap_try _ _ _).
  - unfold get_urls_from_sitemap. by destruct (get_urls_from_sitemap_try _ _ _).
Qed.

Lemma files_without_urls w0 n :
  discovered E sitemap_url w0 = [] ->
  files (run E sitemap_url delay n (Start, w0)).2 = files w0.
Proof.
  intros Hnil. destruct (extract_domain E sitemap_url) as [domain|e] eqn:Hdom.
  - destruct (run_without_urls w0 domain Hdom Hnil) as (w & Hrun & Hfiles & _).
    destruct n as [|[|n]].
    + done.
    + cbn [run main_step]. by rewrite Hdom.
    + rewrite Hrun by lia. done.
  - destruct n as [|n]; [done|]. cbn [run main_step]. rewrite Hdom.
    by rewrite run_stuck.
Qed.

Lemma files_untouched_without_urls w0 c :
  discovered E sitemap_url w0 = [] ->
  rtc (step E sitemap_url delay) (Start, w0) c ->
  files c.2 = files w0.
Proof. intros Hnil [n <-]%reachable_run. by apply files_without_urls. Qed.

Lemma main_returns_without_urls w0 domain :
  extract_domain E sitemap_url = Ok domain ->
  discovered E sitemap_url w0 = [] ->
  exists w,
    main E sitemap_url delay w0 = (Returned, w)
    /\ files w = files w0
    /\ log w = log w0 ++ [Fetched sitemap_url].
Proof.
  intros Hdom Hnil.
  destruct (run_without_urls w0 domain Hdom Hnil) as (w & Hrun & Hfiles & Hlog).
  exists w. split_and!; [|done..]. unfold main, steps_of. apply Hrun. lia.
Qed.

(** [main] always comes to an end: it returns, finishes or crashes. *)
Lemma main_ends w0 : main_step E sitemap_url delay (main E sitemap_url delay w0) = None.
Proof.
  destruct (extract_domain E sitemap_url) as [domain|e] eqn:Hdom.
  - destruct (discovered E sitemap_url w0) as [|u rest] eqn:Hu.
    + destruct (main_returns_without_urls w0 domain Hdom Hu) as (w & -> & _). done.
    + destruct (time_sleep_outcome delay) as [Hd|[e He]].
      * destruct (main_finishes w0 domain) as (csv & w & -> & _);
          [by left | done | by rewrite Hu | done].
      * destruct rest as [|u' rest].
        -- destruct (main_finishes w0 domain) as (csv & w & -> & _);
             [right; by rewrite Hu | done | by rewrite Hu | done].
        -- destruct (main_crashes_at_first_sleep w0 domain e) as (csv & w & -> & _);
             [done | done | rewrite Hu; cbn; lia | done].
  - unfold main, steps_of.
    replace (3 * length (discovered E sitemap_url w0) + 4)%nat
      with (S (3 * length (discovered E sitemap_url w0) + 3))%nat by lia.
    cbn [run main_step]. rewrite Hdom. by rewrite run_stuck.
Qed.

(** The sleeps of a run, at each of its points. *)
Lemma sleep_invariant_step w0 c c' :
  run_invariant E sitemap_url w0 c ->
  sleep_invariant delay w0 (length (discovered E sitemap_url w0)) c ->
  main_step E sitemap_url delay c = Some c' ->
  sleep_invariant delay w0 (length (discovered E sitemap_url w0)) c'.
Proof.
  destruct c as [st w]. unfold run_invariant, sleep_invariant, slept. cbn [fst snd].
  set (n := length (discovered E sitemap_url w0)).
  destruct st as [|csv|csv urls|csv urls done|csv urls done url result|csv urls i| | |e];
    cbn [main_step]; intros Hinv Hsl Hstep.
  - destruct (extract_domain E sitemap_url) as [domain|e]; simplify_eq/=; [done|].
    exists 0%nat. split; [lia|done].
  - unfold get_urls_from_sitemap in Hstep.
    assert (sleeps (log (record (Fetched sitemap_url) (next w))) = sleeps (log w0) ++ [])
      as Hlog by (cbn; rewrite sleeps_app, Hsl; cbn; by rewrite !app_nil_r).
    destruct (get_urls_from_sitemap_try E sitemap_url w) as [[|u urls]|e];
      by simplify_eq/=.
  - by simplify_eq/=.
  - destruct Hinv as (_ & -> & Hle & _). fold n in Hle.
    destruct (discovered E sitemap_url w0 !! done) as [url|] eqn:Hl.
    + pose proof (run_lighthouse_log E url w) as Hlog.
      destruct (run_lighthouse E url w) as [result w']. simplify_eq/=.
      apply lookup_lt_Some in Hl. fold n in Hl. split; [done|].
      rewrite Hlog, sleeps_app, Hsl. cbn. rewrite app_nil_r.
      do 2 f_equal. lia.
    + simplify_eq/=. apply lookup_ge_None in Hl. fold n in Hl.
      rewrite Hsl. do 2 f_equal. lia.
  - destruct Hinv as (_ & -> & Hl & _). destruct Hsl as [Hlt Hsl]. simplify_eq/=.
    assert (forall row, log (append_row csv row (next w)) = log w) as ->
      by (intros row; unfold append_row; by destruct (files _ !! csv) as [[]|]).
    split; [lia|]. rewrite Hsl. do 2 f_equal. lia.
  - destruct Hinv as (_ & -> & Hle & _). fold n in Hle, Hstep.
    destruct Hsl as [Hi Hsl].
    destruct (Nat.ltb_spec i n) as [Hlt|Hge].
    + rewrite time_sleep_cases in Hstep.
      destruct (_ || _); [|destruct (delay <? 0)]; simplify_eq/=.
      * exists (i - 1)%nat. split; [lia|done].
      * exists (i - 1)%nat. split; [lia|done].
      * rewrite sleeps_app, Hsl. cbn. rewrite <- app_assoc. f_equal.
        replace (i `min` (n - 1))%nat with (S (i - 1)) by lia.
        by rewrite replicate_S_end.
    + simplify_eq/=. rewrite Hsl. do 2 f_equal. lia.
  - done.
  - done.
  - done.
Qed.

Lemma sleep_invariant_rtc w0 c0 c :
  rtc (step E sitemap_url delay) c0 c ->
  run_invariant E sitemap_url w0 c0 ->
  sleep_invariant delay w0 (length (discovered E sitemap_url w0)) c0 ->
  sleep_invariant delay w0 (length (discovered E sitemap_url w0)) c.
Proof.
  induction 1 as [c|c c1 c' Hs _ IH]; intros Hrun Hsl; [done|].
  apply IH.
  - by eapply run_invariant_step.
  - by eapply sleep_invariant_step.
Qed.

Lemma sleep_invariant_reachable w0 c :
  rtc (step E sitemap_url delay) (Start, w0) c ->
  sleep_invariant delay w0 (length (discovered E sitemap_url w0)) c.
Proof.
  intros Hreach. eapply sleep_invariant_rtc; [done|done|].
  unfold sleep_invariant, slept. cbn. by rewrite app_nil_r.
Qed.

(** At no point has a run slept more than once for each url but the last. *)
Lemma sleeps_at_every_point w0 st w :
  rtc (step E sitemap_url delay) (Start, w0) (st, w) ->
  exists j,
    (j <= length (discovered E sitemap_url w0) - 1)%nat
    /\ sleeps (log w) = sleeps (log w0) ++ replicate j delay.
Proof.
  intros Hreach. apply sleep_invariant_reachable in Hreach.
  unfold sleep_invariant, slept in Hreach. cbn [fst snd] in Hreach.
  destruct st; try (exists 0%nat; split; [lia|done]).
  - eexists. split; [|done]. lia.
  - destruct Hreach as [Hlt Hsl]. eexists. split; [|done]. lia.
  - destruct Hreach as [Hi Hsl]. eexists. split; [|done]. lia.
  - eexists. split; [|done]. lia.
  - done.
Qed.

End Runs.

(** ** The claims on runs *)



(** The run of section 8 of the specification: page A measured, page B
    timed out. *)
Example report_of_the_example :
  let w := (main Demo.site Demo.sitemap_url 5 Demo.empty_world).2 in
  report w "example.com_pagespeed_20240101_120000.csv"
  = Some [report_header;
          [PStr Demo.page_a; PFloat 87.3; PFloat 2.35; PFloat 2; PFloat 16; PFloat 0.024;
           PStr "2024-01-01 12:00:00"];
          [PStr Demo.page_b; PStr "Error"; PStr "Error"; PStr "Error"; PStr "Error";
           PStr "Error"; PStr "2024-01-01 12:00:00"]]
  /\ log w = [Fetched Demo.sitemap_url; Audited (Some Demo.page_a); Slept 5;
              Audited (Some Demo.page_b)].
Proof. vm_compute. split; reflexivity. Qed.

(** The same run with a delay of -1: [time.sleep] refuses it, and the run
    stops after the first row. *)
Example negative_delay_stops_the_run :
  let c := main Demo.site Demo.sitemap_url (-1) Demo.empty_world in
  c.1 = Crashed ValueError
  /\ length <$> report c.2 "example.com_pagespeed_20240101_120000.csv" = Some 2%nat.
Proof. vm_compute. split; reflexivity. Qed.



(** C4: the reader returns the empty list when the fetch fails, by the
    network, by an error status or by a malformed body; and a run that
    discovers no url returns at once, nothing audited. *)
Theorem sitemap_failure_ends_run E sitemap_url delay :
  (forall w, fetch_fails E sitemap_url w -> (get_urls_from_sitemap E sitemap_url w).1 = [])
  /\ (forall w0 domain,
        extract_domain E sitemap_url = Ok domain ->
        discovered E sitemap_url w0 = [] ->
        exists w,
          main E sitemap_url delay w0 = (Returned, w)
          /\ (forall n, (2 <= n)%nat ->
                        run E sitemap_url delay n (Start, w0) = (Returned, w))
          /\ audits (log w) = audits (log w0)).
Proof.
  split.
  - intros w. apply get_urls_from_sitemap_fails.
  - intros w0 domain Hdom Hnil.
    destruct (run_without_urls E sitemap_url delay w0 domain Hdom Hnil)
      as (w & Hrun & _ & Hlog).
    exists w. split_and!; [|done|].
    + unfold main, steps_of. apply Hrun. lia.
    + rewrite Hlog, audits_app. cbn. by rewrite app_nil_r.
Qed.

Lemma sitemap_failure_ends_run_witness :
  (get_urls_from_sitemap Demo.offline Demo.sitemap_url Demo.empty_world).1 = []
  /\ exists w, main Demo.offline Demo.sitemap_url 5 Demo.empty_world = (Returned, w).
Proof.
  destruct (sitemap_failure_ends_run Demo.offline Demo.sitemap_url 5) as [Hreader Hrun].
  split.
  - apply Hreader. apply fetch_network_error. reflexivity.
  - destruct (Hrun Demo.empty_world "example.com") as (w & Hw & _).
    + reflexivity.
    + reflexivity.
    + exists w. exact Hw.
Defined.

(** C6, as the code has it: the creation of the report writes the header
    alone, and from then on the first line of the report is that header,
    whose last column is "Waktu Pengukuran". *)
Theorem header_row_written_first E sitemap_url delay w0 :
  (forall csv urls w,
      exists w', main_step E sitemap_url delay (Create csv urls, w)
                 = Some (Measure csv urls 0, w')
                 /\ report w' csv
                    = Some [[PStr "URL"; PStr "Performance Score"; PStr "Speed Index (s)";
                             PStr "LCP (s)"; PStr "INP (ms)"; PStr "CLS";
                             PStr "Waktu Pengukuran"]])
  /\ (forall st w csv urls k,
        rtc (step E sitemap_url delay) (Start, w0) (st, w) ->
        progress st = Some (csv, urls, k) ->
        first_row w csv
        = Some [PStr "URL"; PStr "Performance Score"; PStr "Speed Index (s)";
                PStr "LCP (s)"; PStr "INP (ms)"; PStr "CLS"; PStr "Waktu Pengukuran"]).
Proof.
  split.
  - intros csv urls w. eexists. split; [reflexivity|].
    unfold report. cbn. by rewrite lookup_insert_eq.
  - intros st w csv urls k Hreach Hp.
    destruct (report_at_every_point E sitemap_url delay w0 st w csv urls k Hreach Hp)
      as (_ & _ & rows & Hrep & _).
    unfold first_row. by rewrite Hrep.
Qed.

Lemma header_row_written_first_witness :
  first_row (main Demo.site Demo.sitemap_url 5 Demo.empty_world).2
    "example.com_pagespeed_20240101_120000.csv"
  = Some [PStr "URL"; PStr "Performance Score"; PStr "Speed Index (s)";
          PStr "LCP (s)"; PStr "INP (ms)"; PStr "CLS"; PStr "Waktu Pengukuran"].
Proof.
  apply (proj2 (header_row_written_first Demo.site Demo.sitemap_url 5 Demo.empty_world)
           (main Demo.site Demo.sitemap_url 5 Demo.empty_world).1
           (main Demo.site Demo.sitemap_url 5 Demo.empty_world).2
           "example.com_pagespeed_20240101_120000.csv"
           [Some Demo.page_a; Some Demo.page_b] 2%nat).
  - rewrite <- surjective_pairing. apply run_reachable.
  - vm_compute. reflexivity.
Defined.

(** C6, as stated, fails: the report of the example starts with a header
    that is not the one of the specification. *)
Lemma header_differs_from_specification :
  first_row (main Demo.site Demo.sitemap_url 5 Demo.empty_world).2
    "example.com_pagespeed_20240101_120000.csv" = Some report_header
  /\ report_header <> Spec.header.
Proof. split; [vm_compute; reflexivity | discriminate]. Qed.



(** C10: when the discovery yields no url, no file is created or changed at
    any point of the run, and the run returns before the report is
    opened. *)
Theorem no_report_without_urls E sitemap_url delay w0 :
  discovered E sitemap_url w0 = [] ->
  (forall c, rtc (step E sitemap_url delay) (Start, w0) c -> files c.2 = files w0)
  /\ files (main E sitemap_url delay w0).2 = files w0
  /\ (forall domain,
        extract_domain E sitemap_url = Ok domain ->
        (main E sitemap_url delay w0).1 = Returned).
Proof.
  intros Hnil. split_and!.
  - intros c. by apply files_untouched_without_urls.
  - by apply files_without_urls.
  - intros domain Hdom.
    by destruct (main_returns_without_urls E sitemap_url delay w0 domain Hdom Hnil)
      as (w & -> & _).
Qed.

Lemma no_report_without_urls_witness :
  files (main Demo.offline Demo.sitemap_url 5 Demo.empty_world).2 = ∅
  /\ (main Demo.offline Demo.sitemap_url 5 Demo.empty_world).1 = Returned.
Proof.
  destruct (no_report_without_urls Demo.offline Demo.sitemap_url 5 Demo.empty_world
              eq_refl) as (_ & Hfiles & Hreturned).
  split; [exact Hfiles | exact (Hreturned "example.com" eq_refl)].
Defined.

(** * Further properties of the code *)

(** ** The extraction *)

Lemma extract_metrics_not_dict data :
  is_dict data = false -> extract_metrics data = Raise AttributeError.
Proof. by destruct data. Qed.

Lemma py_truediv_float v d r : py_truediv v d = Ok r -> is_float r.
Proof.
  destruct v; unfold py_truediv; try done;
    (destruct (PyFloat.of_quotient _ _); [by intros [= <-]|done]).
Qed.

Lemma py_round_float v n r : is_float v -> py_round v n = Ok r -> is_float r.
Proof. destruct v; try done. by intros _ [= <-]. Qed.

(** X1: a decoded report that is an object with neither an [audits] nor a
    [categories] entry is not an error: the extraction returns zero for
    every metric, an int for the score, the interaction delay and the
    layout shift, a float for the two times. *)
Theorem report_without_sections_gives_zeros items :
  dict_lookup items "audits" = None ->
  dict_lookup items "categories" = None ->
  extract_metrics (PDict items)
  = Ok (Metrics (PInt 0) (PFloat 0) (PFloat 0) (PInt 0) (PInt 0)).
Proof.
  intros Ha Hc. unfold extract_metrics.
  rewrite !py_get_dict, Ha, Hc. vm_compute. reflexivity.
Qed.

Lemma report_without_sections_gives_zeros_witness :
  extract_metrics (PDict [("lighthouseVersion", PStr "12.0.0")])
  = Ok (Metrics (PInt 0) (PFloat 0) (PFloat 0) (PInt 0) (PInt 0)).
Proof.
  apply (report_without_sections_gives_zeros [("lighthouseVersion", PStr "12.0.0")]);
    reflexivity.
Defined.

(** X2: the default of [get] covers an absent score only.  A score that is
    present but [null] (or an object) makes the multiplication raise a
    TypeError, whatever the audits hold. *)
Theorem null_score_fails_extraction data v :
  field data ["categories"; "performance"; "score"] = Some v ->
  v = PNone \/ is_dict v ->
  extract_metrics data = Raise TypeError.
Proof.
  intros Hf Hv. unfold field in Hf.
  destruct data as [| | | | | |items]; try done.
  destruct (dict_lookup items "categories") as [cats|] eqn:Hc; [|done].
  destruct cats as [| | | | | |cats]; try done.
  destruct (dict_lookup cats "performance") as [perf|] eqn:Hp; [|done].
  destruct perf as [| | | | | |perf]; try done.
  destruct (dict_lookup perf "score") as [score|] eqn:Hs; [|done].
  injection Hf as ->.
  unfold extract_metrics. rewrite !py_get_dict, Hc. cbn [default from_option id mbind res_bind].
  rewrite !py_get_dict, Hp. cbn [default from_option id mbind res_bind].
  rewrite !py_get_dict, Hs. cbn [default from_option id mbind res_bind].
  by destruct Hv as [-> | Hv]; [|destruct v].
Qed.

Lemma null_score_fails_extraction_witness :
  extract_metrics Cases.null_score_report = Raise TypeError.
Proof.
  apply (null_score_fails_extraction Cases.null_score_report PNone).
  - reflexivity.
  - left. reflexivity.
Defined.

(** X3: in a metric set the extraction returns, the speed index and the
    largest contentful paint are floats, also when the report holds ints:
    they come out of a true division. *)
Theorem times_are_floats data m :
  extract_metrics data = Ok m -> is_float (speed_index m) /\ is_float (lcp m).
Proof.
  unfold extract_metrics. intros H.
  apply bind_ok in H as (audits & _ & H).
  apply bind_ok in H as (categories & _ & H).
  apply bind_ok in H as (perf_cat & _ & H).
  apply bind_ok in H as (score & _ & H).
  apply bind_ok in H as (perf & _ & H).
  apply bind_ok in H as (si_audit & _ & H).
  apply bind_ok in H as (si_value & _ & H).
  apply bind_ok in H as (si & Hsi & H).
  apply bind_ok in H as (lcp_audit & _ & H).
  apply bind_ok in H as (lcp_value & _ & H).
  apply bind_ok in H as (l & Hl & H).
  repeat (apply bind_ok in H as (? & ? & H)).
  injection H as <-. cbn [speed_index lcp].
  split; eapply py_round_float; try eassumption; by eapply py_truediv_float.
Qed.

Lemma times_are_floats_witness :
  is_float (PFloat 2.35) /\ is_float (PFloat 2).
Proof.
  apply (times_are_floats Demo.audit_report
           (Metrics (PFloat 87.3) (PFloat 2.35) (PFloat 2) (PFloat 16) (PFloat 0.024))).
  vm_compute. reflexivity.
Defined.

(** ** The audit invoker *)

Lemma run_lighthouse_decoded E u w wrote data :
  lighthouse E (S (tick w)) u (artifact_name E w) = Exited wrote ->
  artifact_read E w wrote = Some (Json data) ->
  (run_lighthouse E (Some u) w).1
  = match extract_metrics data with
    | Ok m => m
    | Raise _ => default_error_values
    end.
Proof.
  intros Hp Hr. unfold run_lighthouse, run_lighthouse_try.
  fold (artifact_name E w). cbn [tick next record]. rewrite Hp.
  rewrite files_write_opt. unfold artifact_read in Hr.
  cbn [files next record]. rewrite Hr. cbn [json_load].
  by destruct (extract_metrics data) as [m|[]].
Qed.

(** X4: a tool output that is valid JSON but not an object (a list, a
    string, [null], ...) gives the error values: the first [get] raises an
    AttributeError, which the last handler takes. *)
Theorem json_that_is_no_object E u w wrote data :
  lighthouse E (S (tick w)) u (artifact_name E w) = Exited wrote ->
  artifact_read E w wrote = Some (Json data) ->
  is_dict data = false ->
  (run_lighthouse E (Some u) w).1 = default_error_values.
Proof.
  intros Hp Hr Hd. rewrite (run_lighthouse_decoded E u w wrote data Hp Hr).
  by rewrite extract_metrics_not_dict.
Qed.

Lemma json_that_is_no_object_witness :
  (run_lighthouse (Cases.answering 200 (Ok (qualify Demo.sitemap_doc))
                     (Exited (Some (Json (PList [PInt 1])))))
     (Some Demo.page_a) Demo.empty_world).1
  = default_error_values.
Proof.
  apply (json_that_is_no_object _ Demo.page_a Demo.empty_world
           (Some (Json (PList [PInt 1]))) (PList [PInt 1])); reflexivity.
Defined.

(** X5: when the tool exits and the file at the temporary name decodes,
    whether the tool wrote it or it was there before, the audit returns the
    extracted metrics, or the error values when the extraction raises, and
    in both cases the file is removed. *)
Theorem temp_file_removed_once_decoded E u w wrote data :
  lighthouse E (S (tick w)) u (artifact_name E w) = Exited wrote ->
  artifact_read E w wrote = Some (Json data) ->
  (run_lighthouse E (Some u) w).1
  = match extract_metrics data with
    | Ok m => m
    | Raise _ => default_error_values
    end
  /\ files (run_lighthouse E (Some u) w).2 !! artifact_name E w = None.
Proof.
  intros Hp Hr. split.
  - by eapply run_lighthouse_decoded.
  - by eapply artifact_removed_when_decoded.
Qed.

(** The tool writes nothing, and the report of an earlier audit is read
    and removed. *)
Lemma temp_file_removed_once_decoded_witness :
  let E := Cases.answering 200 (Ok (qualify Demo.sitemap_doc)) (Exited None) in
  let w := Cases.holding "lighthouse_report_20240101_120000.json"
             (Json Demo.audit_report) in
  (run_lighthouse E (Some Demo.page_b) w).1
  = Metrics (PFloat 87.3) (PFloat 2.35) (PFloat 2) (PFloat 16) (PFloat 0.024)
  /\ files (run_lighthouse E (Some Demo.page_b) w).2
     !! "lighthouse_report_20240101_120000.json" = None.
Proof.
  apply (temp_file_removed_once_decoded
           (Cases.answering 200 (Ok (qualify Demo.sitemap_doc)) (Exited None))
           Demo.page_b
           (Cases.holding "lighthouse_report_20240101_120000.json"
              (Json Demo.audit_report))
           None Demo.audit_report); reflexivity.
Defined.

(** X6: the temporary file is left behind on the two paths where it is
    not decoded: on a timeout the files are as the tool left them, and
    after an exit with a text that is not JSON that text is still at the
    temporary name.  Both return the error values. *)
Theorem temp_file_left_when_not_decoded E w :
  (forall u wrote,
      lighthouse E (S (tick w)) u (artifact_name E w) = TimedOut wrote ->
      (run_lighthouse E (Some u) w).1 = default_error_values
      /\ files (run_lighthouse E (Some u) w).2
         = files (write_opt (artifact_name E w) wrote w))
  /\ (forall u c,
        lighthouse E (S (tick w)) u (artifact_name E w) = Exited (Some c) ->
        json_load c = Raise JSONDecodeError ->
        (run_lighthouse E (Some u) w).1 = default_error_values
        /\ files (run_lighthouse E (Some u) w).2 !! artifact_name E w = Some c).
Proof.
  split.
  - intros u wrote Hp. unfold run_lighthouse, run_lighthouse_try.
    fold (artifact_name E w). cbn [tick next record]. rewrite Hp.
    split; [done|]. by destruct wrote.
  - intros u c Hp Hj. split.
    + apply run_lighthouse_fails. by eapply fails_not_json.
    + by apply artifact_left_when_not_decoded.
Qed.

Lemma temp_file_left_when_not_decoded_witness :
  files (run_lighthouse
           (Cases.answering 200 (Ok (qualify Demo.sitemap_doc))
              (TimedOut (Some Garbage)))
           (Some Demo.page_a) Demo.empty_world).2
  = {["lighthouse_report_20240101_120000.json" := Garbage]}
  /\ files (run_lighthouse Demo.truncating (Some Demo.page_a) Demo.empty_world).2
     !! "lighthouse_report_20240101_120000.json" = Some Garbage.
Proof.
  split.
  - apply (proj1 (temp_file_left_when_not_decoded
                    (Cases.answering 200 (Ok (qualify Demo.sitemap_doc))
                       (TimedOut (Some Garbage)))
                    Demo.empty_world) Demo.page_a (Some Garbage)).
    reflexivity.
  - apply (proj2 (temp_file_left_when_not_decoded Demo.truncating Demo.empty_world)
             Demo.page_a Garbage); reflexivity.
Defined.

(** X7: an audit touches no file but the one at its temporary name, and
    adds exactly its own entry to the log. *)
Theorem audit_touches_only_its_file E url w :
  (forall path,
      path <> artifact_name E w ->
      files (run_lighthouse E url w).2 !! path = files w !! path)
  /\ log (run_lighthouse E url w).2 = log w ++ [Audited url].
Proof.
  split.
  - intros path. apply run_lighthouse_files.
  - apply run_lighthouse_log.
Qed.

Lemma audit_touches_only_its_file_witness :
  files (run_lighthouse Demo.site (Some Demo.page_a)
           (Cases.holding "notes.txt" Garbage)).2 !! "notes.txt"
  = Some Garbage.
Proof.
  apply (proj1 (audit_touches_only_its_file Demo.site (Some Demo.page_a)
                  (Cases.holding "notes.txt" Garbage)) "notes.txt").
  vm_compute. discriminate.
Defined.

(** ** The report name *)

Lemma until_delim_no_delim s :
  Str.forallb (fun c => negb (Url.is_delim c)) (Url.until_delim s) = true.
Proof.
  induction s as [|c s IH]; [done|]. cbn [Url.until_delim].
  destruct (Url.is_delim c) eqn:Hc; [done|]. cbn [Str.forallb]. by rewrite Hc.
Qed.

Lemma replace_from_keeps p old s : forall skip,
  Str.forallb p s = true -> Str.forallb p (Str.replace_from old "" skip s) = true.
Proof.
  induction s as [|c s IH]; intros skip; [done|].
  cbn [Str.forallb Str.replace_from]. intros [Hc Hs]%andb_true_iff.
  destruct skip as [|k]; [|by apply IH].
  destruct (String.prefix old (String c s)).
  - rewrite str_app_nil. by apply IH.
  - cbn [Str.forallb]. rewrite Hc. by apply IH.
Qed.

Lemma before_keeps p sep s :
  Str.forallb p s = true -> Str.forallb p (Str.before sep s) = true.
Proof.
  induction s as [|c s IH]; [done|].
  cbn [Str.forallb Str.before]. intros [Hc Hs]%andb_true_iff.
  destruct (Ascii.eqb c sep); [done|]. cbn [Str.forallb]. rewrite Hc. by apply IH.
Qed.

Lemma before_has_no_sep sep s : Str.contains sep (Str.before sep s) = false.
Proof.
  induction s as [|c s IH]; [done|]. cbn [Str.before].
  destruct (Ascii.eqb c sep) eqn:Hc; [done|]. cbn [Str.contains]. by rewrite Hc.
Qed.

Lemma no_delim_contains s x :
  Url.is_delim x = true ->
  Str.forallb (fun c => negb (Url.is_delim c)) s = true -> Str.contains x s = false.
Proof.
  intros Hx. induction s as [|c s IH]; [done|].
  cbn [Str.forallb Str.contains]. intros [Hc Hs]%andb_true_iff.
  rewrite (IH Hs), orb_false_r. destruct (Ascii.eqb_spec c x) as [->|]; [|done].
  by rewrite Hx in Hc.
Qed.

Lemma netloc_no_delim check url n :
  Url.netloc check url = Ok n ->
  Str.forallb (fun c => negb (Url.is_delim c)) n = true.
Proof.
  unfold Url.netloc.
  destruct (Url.strip_scheme _) as [|a s]; [by intros [= <-]|].
  destruct (Ascii.eqb_spec a "/") as [->|Ha].
  2:{ intros H. assert (Ok "" = Ok n) as [= <-]; [|done].
      rewrite <- H. destruct a as [[] [] [] [] [] [] [] []]; try done; by destruct s. }
  destruct s as [|b rest]; [by intros [= <-]|].
  destruct (Ascii.eqb_spec b "/") as [->|Hb].
  2:{ intros H. assert (Ok "" = Ok n) as [= <-]; [|done].
      rewrite <- H. destruct b as [[] [] [] [] [] [] [] []]; try done. }
  pose proof (until_delim_no_delim rest) as Hn.
  destruct (xorb _ _); [done|].
  destruct (_ || _); [destruct (check _)|]; by intros [= <-].
Qed.

(** X8: whatever the sitemap url, the domain part of the report name holds
    no [/], [?], [#] or [:]: the report is a file of the working directory,
    and the port never appears in its name. *)
Theorem domain_has_no_separator E sitemap_url domain :
  extract_domain E sitemap_url = Ok domain ->
  Str.contains "/" domain = false /\ Str.contains "?" domain = false
  /\ Str.contains "#" domain = false /\ Str.contains ":" domain = false.
Proof.
  unfold extract_domain. intros H. apply bind_ok in H as (n & Hn & H).
  injection H as <-. apply netloc_no_delim in Hn.
  assert (Str.forallb (fun c => negb (Url.is_delim c))
            (Str.before ":" (Str.replace "www." "" n)) = true) as Hd.
  { apply before_keeps. by apply replace_from_keeps. }
  split_and!; [by apply no_delim_contains..|]. apply before_has_no_sep.
Qed.

Lemma domain_has_no_separator_witness :
  Str.contains "/" "example.com" = false /\ Str.contains "?" "example.com" = false
  /\ Str.contains "#" "example.com" = false /\ Str.contains ":" "example.com" = false.
Proof.
  apply (domain_has_no_separator Demo.site "https://www.example.com:443/sitemap.xml").
  reflexivity.
Defined.

(** X9: for an http or https url with a usual host followed by a path, a
    query or a fragment, the domain is the host with every [www.] removed
    and cut at the first [:]; the earlier variant removes [www.] and keeps
    the port. *)
Theorem domain_of_plain_host E scheme host c rest :
  scheme = "http" \/ scheme = "https" ->
  Str.forallb Url.is_plain_host_char host = true ->
  Url.is_delim c = true ->
  extract_domain E (scheme +:+ "://" +:+ host +:+ String c rest)
  = Ok (Str.before ":" (Str.replace "www." "" host))
  /\ App2Run.extract_domain E (scheme +:+ "://" +:+ host +:+ String c rest)
     = Ok (Str.replace "www." "" host).
Proof.
  intros Hs Hh Hc. unfold extract_domain, App2Run.extract_domain.
  by rewrite (netloc_of_plain_host _ scheme host c rest Hs Hh Hc).
Qed.

Lemma domain_of_plain_host_witness :
  extract_domain Demo.site "http://shop.example.org:8080/sitemap.xml"
  = Ok "shop.example.org"
  /\ App2Run.extract_domain Demo.site "http://shop.example.org:8080/sitemap.xml"
     = Ok "shop.example.org:8080".
Proof.
  apply (domain_of_plain_host Demo.site "http" "shop.example.org:8080" "/" "sitemap.xml").
  - left. reflexivity.
  - vm_compute. reflexivity.
  - reflexivity.
Defined.

(** ** The sitemap reader *)

Lemma no_url_element_findall root :
  no_url_element root -> findall_url_loc root = [].
Proof.
  unfold no_url_element, findall_url_loc, find_descendants.
  destruct root as [t x cs]. cbn [iter forallb children].
  intros [_ H]%andb_prop_elim.
  assert (filter (fun e => tag e = qualified "url") (flat_map iter cs) = []) as ->; [|done].
  induction (flat_map iter cs) as [|e l IH]; [done|].
  cbn [forallb] in H. apply andb_prop_elim in H as [He Hl].
  rewrite filter_cons_False; [by apply IH|].
  intros Heq. rewrite Heq, String.eqb_refl in He. done.
Qed.

(** X10: a well-formed document without any [url] element of the sitemap
    namespace, a sitemap index for one, yields no url, with any status: the
    run returns without a report and leaves the files as they were. *)
Theorem sitemap_without_url_elements E sitemap_url delay w0 status_code root domain :
  requests_get E (S (tick w0)) sitemap_url = Response status_code (Ok root) ->
  no_url_element root ->
  extract_domain E sitemap_url = Ok domain ->
  discovered E sitemap_url w0 = []
  /\ exists w, main E sitemap_url delay w0 = (Returned, w) /\ files w = files w0.
Proof.
  intros Hget Hno Hdom.
  assert (discovered E sitemap_url w0 = []) as Hnil.
  { unfold discovered, get_urls_from_sitemap, get_urls_from_sitemap_try.
    cbn [tick next]. rewrite Hget.
    destruct (raise_for_status status_code) as [[]|]; [|done].
    cbn. by rewrite no_url_element_findall. }
  split; [done|].
  destruct (main_returns_without_urls E sitemap_url delay w0 domain Hdom Hnil)
    as (w & Hrun & Hfiles & _).
  by exists w.
Qed.

Lemma sitemap_without_url_elements_witness :
  let E := Cases.answering 200 (Ok Cases.sitemap_index) NotInstalled in
  discovered E Demo.sitemap_url Demo.empty_world = []
  /\ exists w, main E Demo.sitemap_url 5 Demo.empty_world = (Returned, w)
               /\ files w = files Demo.empty_world.
Proof.
  apply (sitemap_without_url_elements
           (Cases.answering 200 (Ok Cases.sitemap_index) NotInstalled)
           Demo.sitemap_url 5 Demo.empty_world 200 Cases.sitemap_index "example.com").
  - reflexivity.
  - vm_compute. exact I.
  - reflexivity.
Defined.

(** X11: the reader takes the body of any response outside 400-599, while
    the reader of the earlier variant takes it for 200 alone: for another
    such status the first lists the entries of the document and the second
    lists nothing. *)
Theorem reader_accepts_other_statuses E sitemap_url w status_code root :
  requests_get E (tick w) sitemap_url = Response status_code (Ok root) ->
  status_code <> 200 ->
  ~ 400 <= status_code < 600 ->
  (get_urls_from_sitemap E sitemap_url w).1 = text <$> findall_url_loc root
  /\ (App2.get_urls_from_sitemap E sitemap_url w).1 = Ok [].
Proof.
  intros Hget H200 Herr. split.
  - apply (get_urls_from_sitemap_served _ _ _ status_code); [done|].
    unfold raise_for_status.
    destruct (Z.leb_spec 400 status_code), (Z.ltb_spec status_code 600); try done. lia.
  - unfold App2.get_urls_from_sitemap. rewrite Hget.
    by destruct (Z.eqb_spec status_code 200).
Qed.

Lemma reader_accepts_other_statuses_witness :
  let E := Cases.answering 203 (Ok (qualify Demo.sitemap_doc)) NotInstalled in
  (get_urls_from_sitemap E Demo.sitemap_url Demo.empty_world).1
  = text <$> findall_url_loc (qualify Demo.sitemap_doc)
  /\ (App2.get_urls_from_sitemap E Demo.sitemap_url Demo.empty_world).1 = Ok [].
Proof.
  apply (reader_accepts_other_statuses
           (Cases.answering 203 (Ok (qualify Demo.sitemap_doc)) NotInstalled)
           Demo.sitemap_url Demo.empty_world 203 (qualify Demo.sitemap_doc)).
  - reflexivity.
  - lia.
  - lia.
Defined.

(** ** Runs of [main]: how they end, and the files they touch *)

Section Outcome.

Variables (E : env) (sitemap_url : string) (delay : Z).

Lemma start_to_loop_named w0 domain :
  extract_domain E sitemap_url = Ok domain ->
  discovered E sitemap_url w0 <> [] ->
  exists w,
    run E sitemap_url delay 3 (Start, w0)
    = (Measure (report_name E domain w0) (discovered E sitemap_url w0) 0, w)
    /\ log w = log w0 ++ [Fetched sitemap_url].
Proof.
  intros Hdom Hne. cbn [run main_step]. rewrite Hdom. cbn [run main_step].
  unfold discovered in *.
  destruct (get_urls_from_sitemap E sitemap_url (next w0)) as [urls w1] eqn:Hg.
  cbn [fst] in *. destruct urls as [|u urls]; [done|].
  cbn [run main_step]. eexists. split; [done|]. cbn [write log].
  unfold get_urls_from_sitemap in Hg.
  by destruct (get_urls_from_sitemap_try _ _ _); simplify_eq/=.
Qed.

Lemma main_finishes_named w0 domain :
  0 <= delay <= 9223372036 \/ (length (discovered E sitemap_url w0) <= 1)%nat ->
  extract_domain E sitemap_url = Ok domain ->
  discovered E sitemap_url w0 <> [] ->
  exists w,
    main E sitemap_url delay w0
    = (Finished (report_name E domain w0) (discovered E sitemap_url w0), w)
    /\ report_is E w (report_name E domain w0) (discovered E sitemap_url w0)
    /\ log w
       = log w0 ++ Fetched sitemap_url :: loop_log delay (discovered E sitemap_url w0).
Proof.
  intros Hd Hdom Hne.
  destruct (start_to_loop_named w0 domain Hdom Hne) as (w1 & Hrun & Hlog).
  destruct (loop_to_end E sitemap_url delay (report_name E domain w0)
              (discovered E sitemap_url w0)
              (length (discovered E sitemap_url w0)) 0%nat w1 Hd)
    as (w & Hrun' & Hlog'); [done|].
  assert (main E sitemap_url delay w0
          = (Finished (report_name E domain w0) (discovered E sitemap_url w0), w))
    as Hmain.
  { unfold main, steps_of.
    replace (3 * length (discovered E sitemap_url w0) + 4)%nat
      with (3 + (3 * length (discovered E sitemap_url w0) + 1))%nat by lia.
    by rewrite run_add, Hrun, Hrun'. }
  exists w. split_and!; [done| |].
  - destruct (report_at_every_point E sitemap_url delay w0
                (Finished (report_name E domain w0) (discovered E sitemap_url w0)) w
                (report_name E domain w0) (discovered E sitemap_url w0)
                (length (discovered E sitemap_url w0)))
      as (_ & _ & Hrep); [|done|by rewrite firstn_all in Hrep].
    rewrite <- Hmain. apply run_reachable.
  - by rewrite Hlog', Hlog, <- app_assoc.
Qed.

End Outcome.

(** X12: two kinds of run in which the delay plays no part.  When
    [urlparse] refuses the sitemap url, [main] stops on that exception
    before anything is fetched or written.  When exactly one url is
    discovered, it finishes whatever the delay, negative or beyond what can
    be slept: the report, named after the domain and the start time, holds
    the header and the row of that url, and nothing is slept. *)
Theorem runs_that_never_sleep E sitemap_url delay w0 :
  (forall e,
      extract_domain E sitemap_url = Raise e ->
      main E sitemap_url delay w0 = (Crashed e, w0))
  /\ (forall domain u,
        extract_domain E sitemap_url = Ok domain ->
        discovered E sitemap_url w0 = [u] ->
        exists w,
          main E sitemap_url delay w0 = (Finished (report_name E domain w0) [u], w)
          /\ report_is E w (report_name E domain w0) [u]
          /\ sleeps (log w) = sleeps (log w0)).
Proof.
  split.
  - intros e Hdom. unfold main, steps_of.
    replace (3 * length (discovered E sitemap_url w0) + 4)%nat
      with (S (3 * length (discovered E sitemap_url w0) + 3))%nat by lia.
    cbn [run main_step]. rewrite Hdom. by rewrite run_stuck.
  - intros domain u Hdom Hu.
    destruct (main_finishes_named E sitemap_url delay w0 domain)
      as (w & Hmain & Hrep & Hlog);
      [right; by rewrite Hu | done | by rewrite Hu |].
    rewrite Hu in Hmain, Hrep, Hlog. exists w. split_and!; [done..|].
    rewrite Hlog, sleeps_app. cbn. by rewrite app_nil_r.
Qed.

Lemma runs_that_never_sleep_witness :
  main Demo.site "https://[example.com/sitemap.xml" 5 Demo.empty_world
  = (Crashed ValueError, Demo.empty_world)
  /\ exists w,
       main (Demo.serving Cases.one_page) Demo.sitemap_url (-10000000000000000000)
         Demo.empty_world
       = (Finished "example.com_pagespeed_20240101_120000.csv" [Some Demo.page_a], w)
       /\ report_is (Demo.serving Cases.one_page) w
            "example.com_pagespeed_20240101_120000.csv" [Some Demo.page_a]
       /\ sleeps (log w) = sleeps (log Demo.empty_world).
Proof.
  split.
  - apply (proj1 (runs_that_never_sleep Demo.site "https://[example.com/sitemap.xml" 5
                    Demo.empty_world) ValueError).
    reflexivity.
  - apply (proj2 (runs_that_never_sleep (Demo.serving Cases.one_page) Demo.sitemap_url
                    (-10000000000000000000) Demo.empty_world)
             "example.com" (Some Demo.page_a)); reflexivity.
Defined.

(** X13: with more than one url and a delay that [time.sleep] refuses, the
    run stops on the exception of the first sleep, after the first url: a
    ValueError for a negative delay down to -9223372036 seconds, and an
    OverflowError for a delay beyond 9223372036 seconds either way, whose
    nanoseconds do not fit in 64 bits.  The report holds the header and the
    row of the first url, and nothing was slept. *)
Theorem refused_delay_stops_after_one_row E sitemap_url delay w0 domain u rest :
  delay < 0 \/ 9223372036 < delay ->
  extract_domain E sitemap_url = Ok domain ->
  discovered E sitemap_url w0 = u :: rest ->
  rest <> [] ->
  exists csv w,
    main E sitemap_url delay w0
    = (Crashed (if (-9223372036 <=? delay) && (delay <? 0)
                then ValueError else OverflowError), w)
    /\ report_is E w csv [u]
    /\ sleeps (log w) = sleeps (log w0).
Proof.
  intros Hd Hdom Hu Hrest.
  destruct (main_crashes_at_first_sleep E sitemap_url delay w0 domain
              (if (-9223372036 <=? delay) && (delay <? 0)
               then ValueError else OverflowError))
    as (csv & w & Hrun & Hrep & Hsl); [|done| |].
  - intros w. destruct ((-9223372036 <=? delay) && (delay <? 0)) eqn:Hc.
    + apply time_sleep_negative. lia.
    + apply time_sleep_overflow. lia.
  - rewrite Hu. destruct rest; [done|]. cbn. lia.
  - exists csv, w. by rewrite Hu in Hrep.
Qed.

Lemma refused_delay_stops_after_one_row_witness :
  (exists csv w,
      main Demo.site Demo.sitemap_url (-1) Demo.empty_world = (Crashed ValueError, w)
      /\ report_is Demo.site w csv [Some Demo.page_a]
      /\ sleeps (log w) = sleeps (log Demo.empty_world))
  /\ (exists csv w,
        main Demo.site Demo.sitemap_url 10000000000000000000 Demo.empty_world
        = (Crashed OverflowError, w)
        /\ report_is Demo.site w csv [Some Demo.page_a]
        /\ sleeps (log w) = sleeps (log Demo.empty_world)).
Proof.
  split.
  - apply (refused_delay_stops_after_one_row Demo.site Demo.sitemap_url (-1)
             Demo.empty_world "example.com" (Some Demo.page_a) [Some Demo.page_b]).
    + lia.
    + reflexivity.
    + reflexivity.
    + discriminate.
  - apply (refused_delay_stops_after_one_row Demo.site Demo.sitemap_url
             10000000000000000000
             Demo.empty_world "example.com" (Some Demo.page_a) [Some Demo.page_b]).
    + lia.
    + reflexivity.
    + reflexivity.
    + discriminate.
Defined.

Section Frame.

Variables (E : env) (sitemap_url : string) (delay : Z) (path : string) (w0 : world).

Hypothesis not_artifact : ~ is_artifact E path.
Hypothesis not_report :
  forall domain, extract_domain E sitemap_url = Ok domain -> path <> report_name E domain w0.

Lemma append_row_other csv row w :
  path <> csv -> files (append_row csv row w) !! path = files w !! path.
Proof.
  intros Hne. unfold append_row.
  destruct (files w !! csv) as [[rows|v|]|]; cbn; by rewrite lookup_insert_ne.
Qed.

Lemma frame_invariant_step c c' :
  frame_invariant E path w0 c ->
  main_step E sitemap_url delay c = Some c' ->
  frame_invariant E path w0 c'.
Proof.
  destruct c as [st w]. unfold frame_invariant. cbn [fst snd].
  intros [Hfiles Hst].
  destruct st as [|csv|csv urls|csv urls done|csv urls done url result|csv urls i| | |e];
    cbn [main_step]; intros Hstep.
  - destruct (extract_domain E sitemap_url) as [domain|e] eqn:Hdom; simplify_eq/=; [|done].
    split; [done|]. rewrite Hst. by apply not_report.
  - unfold get_urls_from_sitemap in Hstep.
    destruct (get_urls_from_sitemap_try E sitemap_url w) as [[|u urls]|e];
      by simplify_eq/=.
  - simplify_eq/=. split; [|done]. by rewrite lookup_insert_ne.
  - destruct (urls !! done) as [url|]; [|by simplify_eq/=].
    pose proof (run_lighthouse_files E url w path) as Hframe.
    destruct (run_lighthouse E url w) as [result w']. simplify_eq/=.
    split; [|done]. rewrite Hframe; [done|].
    intros Heq. apply not_artifact. by exists (tick w).
  - simplify_eq/=. split; [|done]. by rewrite append_row_other.
  - destruct (i <? length _)%nat; [|by simplify_eq/=].
    pose proof (time_sleep_files delay w) as Hsleep.
    destruct (time_sleep delay w) as [[[]|e] w']; simplify_eq/=;
      (split; [by rewrite Hsleep|done]).
  - done.
  - done.
  - done.
Qed.

Lemma frame_invariant_reachable c :
  rtc (step E sitemap_url delay) (Start, w0) c -> frame_invariant E path w0 c.
Proof.
  assert (frame_invariant E path w0 (Start, w0)) as Hinit by done.
  revert Hinit. generalize (Start, w0). intros c0 Hinit Hreach.
  induction Hreach as [c|c c1 c' Hs _ IH]; [done|].
  apply IH. by eapply frame_invariant_step.
Qed.

End Frame.

(** X14: a run of [main] changes two kinds of files only, its report and
    the temporary files of the audits.  Any other file is, at every point
    of the run and at its end, what it was at the start. *)
Theorem main_touches_only_its_files E sitemap_url delay path w0 :
  ~ is_artifact E path ->
  (forall domain, extract_domain E sitemap_url = Ok domain ->
                  path <> report_name E domain w0) ->
  (forall c, rtc (step E sitemap_url delay) (Start, w0) c ->
             files c.2 !! path = files w0 !! path)
  /\ files (main E sitemap_url delay w0).2 !! path = files w0 !! path.
Proof.
  intros Ha Hr.
  assert (forall c, rtc (step E sitemap_url delay) (Start, w0) c ->
                    files c.2 !! path = files w0 !! path) as Hall.
  { intros c Hc.
    by destruct (frame_invariant_reachable E sitemap_url delay path w0 Ha Hr c Hc). }
  split; [done|]. apply Hall. apply run_reachable.
Qed.

Lemma main_touches_only_its_files_witness :
  files (main Demo.site Demo.sitemap_url 5 (Cases.holding "notes.txt" Garbage)).2
    !! "notes.txt" = Some Garbage.
Proof.
  apply (proj2 (main_touches_only_its_files Demo.site Demo.sitemap_url 5 "notes.txt"
                  (Cases.holding "notes.txt" Garbage)
                  ltac:(intros [t Ht]; vm_compute in Ht; discriminate)
                  ltac:(intros domain [= <-]; vm_compute; discriminate))).
Defined.

(** ** The earlier variant *)

Lemma field_cons v key path :
  field v (key :: path) = App2Run.py_item v key ≫= fun v' => field v' path.
Proof. unfold field. destruct v as [| | | | | |items]; try done. Qed.

(** The chain of subscripts is the lookup by path. *)
Lemma app2_extract_by_path data :
  App2Run.extract data
  = (score ← field data ["categories"; "performance"; "score"];
     performance ← App2Run.caught (py_mul score 100);
     si_value ← field data ["audits"; "speed-index"; "numericValue"];
     speed_index ← App2Run.caught (py_truediv si_value 1000);
     r_speed_index ← App2Run.caught (py_round speed_index 2);
     Some (App2Run.Result performance r_speed_index)).
Proof.
  unfold App2Run.extract. rewrite (field_cons data "categories").
  destruct (App2Run.py_item data "categories") as [categories|]; [|reflexivity].
  cbn [mbind option_bind]. rewrite (field_cons categories).
  destruct (App2Run.py_item categories "performance") as [perf|]; [|reflexivity].
  cbn [mbind option_bind]. rewrite (field_cons perf).
  destruct (App2Run.py_item perf "score") as [score|]; [|reflexivity].
  cbn [mbind option_bind]. change (field score []) with (Some score).
  cbn [mbind option_bind].
  destruct (App2Run.caught (py_mul score 100)) as [performance|]; [|reflexivity].
  cbn [mbind option_bind]. rewrite (field_cons data "audits").
  destruct (App2Run.py_item data "audits") as [audits|]; [|reflexivity].
  cbn [mbind option_bind]. rewrite (field_cons audits).
  destruct (App2Run.py_item audits "speed-index") as [si|]; [|reflexivity].
  cbn [mbind option_bind]. rewrite (field_cons si).
  destruct (App2Run.py_item si "numericValue") as [nv|]; reflexivity.
Qed.

Lemma app2_run_lighthouse_decoded E u w data :
  lighthouse E (tick w) u "stdout" = Exited (Some (Json data)) ->
  (App2Run.run_lighthouse E (Some u) w).1
  = default App2Run.error_values (App2Run.extract data).
Proof.
  intros Hp. unfold App2Run.run_lighthouse, App2Run.run_lighthouse_try.
  cbn [tick record]. rewrite Hp. cbn [json_load].
  by destruct (App2Run.extract data).
Qed.

Lemma app2_run_lighthouse_world E url w :
  files (App2Run.run_lighthouse E url w).2 = files w
  /\ log (App2Run.run_lighthouse E url w).2 = log w ++ [Audited url].
Proof.
  unfold App2Run.run_lighthouse, App2Run.run_lighthouse_try.
  destruct url as [u|]; [|done].
  destruct (lighthouse _ _ _ _) as [|wrote|e|[c|]]; try done.
  destruct (json_load c) as [data|e]; [|done].
  by destruct (App2Run.extract data).
Qed.

(** X15: the earlier variant has no default for an absent metric: when the
    score or the speed index is missing from the report, both fields come
    back as the error value, also the one that was there. *)
Theorem missing_metric_gives_error_pair E u w data :
  lighthouse E (tick w) u "stdout" = Exited (Some (Json data)) ->
  field data ["categories"; "performance"; "score"] = None
  \/ field data ["audits"; "speed-index"; "numericValue"] = None ->
  (App2Run.run_lighthouse E (Some u) w).1 = App2Run.error_values.
Proof.
  intros Hp Hm. rewrite (app2_run_lighthouse_decoded E u w data Hp).
  rewrite app2_extract_by_path. destruct Hm as [Hm | Hm]; rewrite Hm; [reflexivity|].
  destruct (field data ["categories"; "performance"; "score"]) as [score|]; [|reflexivity].
  cbn [mbind option_bind]. destruct (App2Run.caught _); reflexivity.
Qed.

Lemma missing_metric_gives_error_pair_witness :
  (App2Run.run_lighthouse
     (Cases.answering 200 (Ok (qualify Demo.sitemap_doc))
        (Exited (Some (Json (PDict [("categories",
                                     PDict [("performance",
                                             PDict [("score", PFloat 0.5)])])])))))
     (Some Demo.page_a) Demo.empty_world).1
  = App2Run.error_values.
Proof.
  apply (missing_metric_gives_error_pair _ Demo.page_a Demo.empty_world
           (PDict [("categories", PDict [("performance", PDict [("score", PFloat 0.5)])])])).
  - reflexivity.
  - right. reflexivity.
Defined.

(** X16: on a report with a float score and a float speed index, the
    earlier variant returns the score times 100 as it is, not rounded, and
    the speed index in seconds rounded to 2 decimals. *)
Theorem performance_is_not_rounded E u w data f g :
  lighthouse E (tick w) u "stdout" = Exited (Some (Json data)) ->
  field data ["categories"; "performance"; "score"] = Some (PFloat f) ->
  field data ["audits"; "speed-index"; "numericValue"] = Some (PFloat g) ->
  (App2Run.run_lighthouse E (Some u) w).1
  = App2Run.Result (PFloat (f * 100)) (PFloat (PyFloat.round (g / 1000) 2)).
Proof.
  intros Hp Hs Hv. rewrite (app2_run_lighthouse_decoded E u w data Hp).
  rewrite app2_extract_by_path, Hs, Hv. cbn [mbind option_bind].
  unfold py_mul, py_truediv. by rewrite of_quotient_100, of_quotient_1000.
Qed.

Lemma performance_is_not_rounded_witness :
  (App2Run.run_lighthouse
     (Cases.answering 200 (Ok (qualify Demo.sitemap_doc))
        (Exited (Some (Json Cases.unrounded_report))))
     (Some Demo.page_a) Demo.empty_world).1
  = App2Run.Result (PFloat 56.99999999999999) (PFloat 2.35).
Proof.
  apply (performance_is_not_rounded _ Demo.page_a Demo.empty_world
           Cases.unrounded_report 0.57 2345.678); reflexivity.
Defined.

(** X17: in the earlier variant, whatever keeps the tool from printing a
    JSON text gives the error pair: no url, the tool missing, the timeout,
    another failure of the call, an empty output, an output that does not
    decode. *)
Theorem earlier_audit_failures_give_error_pair E url w :
  match url with
  | None => True
  | Some u =>
      match lighthouse E (tick w) u "stdout" with
      | Exited (Some c) => json_load c = Raise JSONDecodeError
      | _ => True
      end
  end ->
  (App2Run.run_lighthouse E url w).1 = App2Run.error_values.
Proof.
  unfold App2Run.run_lighthouse, App2Run.run_lighthouse_try. cbn [tick record].
  destruct url as [u|]; [|done].
  destruct (lighthouse E (tick w) u "stdout") as [|wrote|e|[c|]]; try done.
  by intros ->.
Qed.

Lemma earlier_audit_failures_give_error_pair_witness :
  (App2Run.run_lighthouse Demo.truncating (Some Demo.page_a) Demo.empty_world).1
  = App2Run.error_values.
Proof.
  apply (earlier_audit_failures_give_error_pair Demo.truncating (Some Demo.page_a)
           Demo.empty_world).
  reflexivity.
Defined.

(** X18: an audit of the earlier variant reads the output of the tool and
    writes no file: the files are the same after it, and the log has one
    more entry, its own. *)
Theorem earlier_audit_writes_no_file E url w :
  files (App2Run.run_lighthouse E url w).2 = files w
  /\ log (App2Run.run_lighthouse E url w).2 = log w ++ [Audited url].
Proof. apply app2_run_lighthouse_world. Qed.

Lemma app2_loop_log E csv urls : forall w,
  log (App2Run.loop E csv urls w)
  = log w ++ flat_map (fun url => [Audited url; Slept 2]) urls.
Proof.
  induction urls as [|url urls IH]; intros w; cbn [App2Run.loop flat_map].
  - by rewrite app_nil_r.
  - destruct (app2_run_lighthouse_world E url w) as [_ Hlog].
    destruct (App2Run.run_lighthouse E url w) as [r w1]. cbn [snd] in Hlog.
    rewrite IH. cbn [record log].
    assert (log (append_row csv (App2Run.row url r) w1) = log w1) as ->
      by (unfold append_row; by destruct (files w1 !! csv) as [[]|]).
    rewrite Hlog, <- !app_assoc. done.
Qed.

Lemma app2_loop_report E csv urls : forall w rows,
  report w csv = Some rows ->
  exists rows',
    report (App2Run.loop E csv urls w) csv = Some (rows ++ rows')
    /\ Forall2 (fun url r => exists res, r = App2Run.row url res) urls rows'.
Proof.
  induction urls as [|url urls IH]; intros w rows Hrep; cbn [App2Run.loop].
  - exists []. rewrite app_nil_r. split; [done|constructor].
  - destruct (app2_run_lighthouse_world E url w) as [Hfiles _].
    destruct (App2Run.run_lighthouse E url w) as [r w1]. cbn [snd] in Hfiles.
    destruct (IH (record (Slept 2) (append_row csv (App2Run.row url r) w1))
                (rows ++ [App2Run.row url r])) as (rows' & Hrep' & Hrows').
    { unfold report in *. cbn [record files]. unfold append_row. rewrite Hfiles.
      destruct (files w !! csv) as [[rs|v|]|]; try done. injection Hrep as ->.
      cbn. by rewrite lookup_insert_eq. }
    exists (App2Run.row url r :: rows'). split.
    + by rewrite Hrep', <- app_assoc.
    + constructor; [by exists r|done].
Qed.

Lemma app2_loop_other E csv path urls : forall w,
  path <> csv -> files (App2Run.loop E csv urls w) !! path = files w !! path.
Proof.
  induction urls as [|url urls IH]; intros w Hne; cbn [App2Run.loop]; [done|].
  destruct (app2_run_lighthouse_world E url w) as [Hfiles _].
  destruct (App2Run.run_lighthouse E url w) as [r w1]. cbn [snd] in Hfiles.
  rewrite IH by done. cbn [record files]. unfold append_row. rewrite Hfiles.
  destruct (files w !! csv) as [[rs|v|]|]; cbn; rewrite lookup_insert_ne by done;
    by rewrite Hfiles.
Qed.

Lemma sleeps_audit_sleep urls :
  sleeps (flat_map (fun url => [Audited url; Slept 2]) urls) = replicate (length urls) 2.
Proof. induction urls as [|u urls IH]; [done|]. cbn. f_equal. apply IH. Qed.

Lemma audits_audit_sleep urls :
  audits (flat_map (fun url => [Audited url; Slept 2]) urls) = urls.
Proof. induction urls as [|u urls IH]; [done|]. cbn. f_equal. apply IH. Qed.

Lemma last_audit_sleep urls :
  urls <> [] -> last (flat_map (fun url => [Audited url; Slept 2]) urls) = Some (Slept 2).
Proof.
  induction urls as [|u urls IH]; [done|]. intros _. cbn [flat_map app].
  destruct urls as [|u' urls]; [done|].
  rewrite !last_cons. rewrite IH by done. done.
Qed.

Lemma app2_main_run E sitemap_url w domain urls :
  App2Run.extract_domain E sitemap_url = Ok domain ->
  (App2.get_urls_from_sitemap E sitemap_url w).1 = Ok urls ->
  App2Run.main E sitemap_url w
  = (Ok tt,
     App2Run.loop E (domain +:+ "_pagespeed.csv") urls
       (write (domain +:+ "_pagespeed.csv") (Rows [App2Run.header])
          (record (Fetched sitemap_url) (next w)))).
Proof.
  intros Hdom Hurls. unfold App2Run.main. rewrite Hdom.
  unfold App2.get_urls_from_sitemap in *.
  destruct (requests_get E (tick w) sitemap_url) as [|status_code body]; [done|].
  destruct (status_code =? 200); cbn [fst] in Hurls;
    [by rewrite Hurls | by injection Hurls as <-].
Qed.



(** X20: the earlier variant sleeps two seconds after every url, the last
    one included: over [N] urls it sleeps [N] times, audits each url once
    in order, and ends on a sleep. *)
Theorem earlier_main_sleeps_after_every_url E sitemap_url w domain urls :
  App2Run.extract_domain E sitemap_url = Ok domain ->
  (App2.get_urls_from_sitemap E sitemap_url w).1 = Ok urls ->
  let w' := (App2Run.main E sitemap_url w).2 in
  sleeps (log w') = sleeps (log w) ++ replicate (length urls) 2
  /\ audits (log w') = audits (log w) ++ urls
  /\ (urls <> [] -> last (log w') = Some (Slept 2)).
Proof.
  intros Hdom Hurls. rewrite (app2_main_run E sitemap_url w domain urls Hdom Hurls).
  cbn [snd]. rewrite app2_loop_log. cbn [write record next log].
  split_and!.
  - rewrite !sleeps_app, sleeps_audit_sleep. cbn. by rewrite app_nil_r.
  - rewrite !audits_app, audits_audit_sleep. cbn. by rewrite app_nil_r.
  - intros Hne. rewrite last_app, last_audit_sleep by done. done.
Qed.

Lemma earlier_main_sleeps_after_every_url_witness :
  sleeps (log (App2Run.main Demo.site Demo.sitemap_url Demo.empty_world).2) = [2; 2]
  /\ audits (log (App2Run.main Demo.site Demo.sitemap_url Demo.empty_world).2)
     = [Some Demo.page_a; Some Demo.page_b].
Proof.
  destruct (earlier_main_sleeps_after_every_url Demo.site Demo.sitemap_url
              Demo.empty_world "example.com:443" [Some Demo.page_a; Some Demo.page_b]
              eq_refl eq_refl) as (Hsleeps & Haudits & _).
  split; [exact Hsleeps | exact Haudits].
Defined.

(** X21: for a response whose status is not 200, the earlier variant still
    creates the report, with the header alone, and returns; nothing is
    audited. *)
Theorem earlier_main_leaves_header_without_urls E sitemap_url w domain status_code body :
  App2Run.extract_domain E sitemap_url = Ok domain ->
  requests_get E (tick w) sitemap_url = Response status_code body ->
  status_code <> 200 ->
  exists w',
    App2Run.main E sitemap_url w = (Ok tt, w')
    /\ report w' (domain +:+ "_pagespeed.csv") = Some [App2Run.header]
    /\ audits (log w') = audits (log w).
Proof.
  intros Hdom Hget Hst.
  assert ((App2.get_urls_from_sitemap E sitemap_url w).1 = Ok []) as Hurls.
  { unfold App2.get_urls_from_sitemap. rewrite Hget.
    by destruct (Z.eqb_spec status_code 200). }
  rewrite (app2_main_run E sitemap_url w domain [] Hdom Hurls).
  eexists. split; [done|]. cbn [App2Run.loop]. split.
  - unfold report. cbn. by rewrite lookup_insert_eq.
  - cbn. rewrite audits_app. cbn. by rewrite app_nil_r.
Qed.

Lemma earlier_main_leaves_header_without_urls_witness :
  exists w',
    App2Run.main (Cases.answering 404 (Raise ParseError) NotInstalled)
      Demo.sitemap_url Demo.empty_world = (Ok tt, w')
    /\ report w' "example.com:443_pagespeed.csv" = Some [App2Run.header]
    /\ audits (log w') = audits (log Demo.empty_world).
Proof.
  apply (earlier_main_leaves_header_without_urls
           (Cases.answering 404 (Raise ParseError) NotInstalled)
           Demo.sitemap_url Demo.empty_world "example.com:443" 404 (Raise ParseError)).
  - reflexivity.
  - reflexivity.
  - lia.
Defined.

(** X22: the earlier variant does not catch what the reader raises: when
    the sitemap cannot be fetched, or a 200 response is not well-formed
    XML, its [main] ends in that exception before the report is created,
    the files as they were.  On the same fetch the reader of the main
    program returns the empty list. *)
Theorem earlier_main_crashes_on_fetch_failure E sitemap_url w domain :
  App2Run.extract_domain E sitemap_url = Ok domain ->
  requests_get E (tick w) sitemap_url = NetFail
  \/ (exists e, requests_get E (tick w) sitemap_url = Response 200 (Raise e)) ->
  exists e w',
    App2Run.main E sitemap_url w = (Raise e, w')
    /\ files w' = files w
    /\ (get_urls_from_sitemap E sitemap_url w).1 = [].
Proof.
  intros Hdom Hfail. unfold App2Run.main, App2.get_urls_from_sitemap. rewrite Hdom.
  destruct Hfail as [Hget | [e Hget]]; rewrite Hget; cbn.
  - eexists _, _. split_and!; [done..|].
    apply get_urls_from_sitemap_fails. by apply fetch_network_error.
  - eexists _, _. split_and!; [done..|].
    apply get_urls_from_sitemap_fails. by eapply fetch_malformed.
Qed.

Lemma earlier_main_crashes_on_fetch_failure_witness :
  exists e w',
    App2Run.main Demo.offline Demo.sitemap_url Demo.empty_world = (Raise e, w')
    /\ files w' = files Demo.empty_world
    /\ (get_urls_from_sitemap Demo.offline Demo.sitemap_url Demo.empty_world).1 = [].
Proof.
  apply (earlier_main_crashes_on_fetch_failure Demo.offline Demo.sitemap_url
           Demo.empty_world "example.com:443").
  - reflexivity.
  - left. reflexivity.
Defined.
